(** * Book Tracker (src/App.js): the controller of the single screen

    The component [App] keeps seven state variables (the cached list, the
    four form fields, [editingId] and the [loading] flag) and five
    operations on them: [fetchBooks], [resetForm], [handleSubmit],
    [handleDelete] and [startEdit].  This file embeds the operations as
    trees of the effects they perform (state writes, alerts, console
    output, HTTP requests), gives the trees a run-to-completion semantics
    on an event-loop machine, and proves the properties of the
    specification about them. *)

From Stdlib Require Import ZArith NArith List Bool Ascii String Lia DecimalPos.
Import ListNotations.

(** ** The JavaScript built-ins the component calls *)

Module JS.

(** A JavaScript string is a sequence of UTF-16 code units, the numbers
    below 65536.  Nothing below treats a larger number as white space, a
    sign or a digit. *)
Definition jsstring : Type := list N.

(** An ASCII literal of the source, as code units. *)
Definition str (s : string) : jsstring :=
  List.map N_of_ascii (list_ascii_of_string s).

(** [ToBoolean] on a string: only the empty string is falsy. *)
Definition truthy (s : jsstring) : bool :=
  match s with
  | [] => false
  | _ :: _ => true
  end.

(** WhiteSpace and LineTerminator code units of ECMAScript: the ones
    [String.prototype.trim] and [parseInt] strip. *)
Definition is_white_space (c : N) : bool :=
  (existsb (N.eqb c)
     [0x0009; 0x000A; 0x000B; 0x000C; 0x000D; 0x0020; 0x00A0; 0x1680;
      0x2028; 0x2029; 0x202F; 0x205F; 0x3000; 0xFEFF]
   || ((0x2000 <=? c) && (c <=? 0x200A)))%N.

Fixpoint trimStart (s : jsstring) : jsstring :=
  match s with
  | [] => []
  | c :: r => if is_white_space c then trimStart r else s
  end.

Fixpoint trimEnd (s : jsstring) : jsstring :=
  match s with
  | [] => []
  | c :: r =>
      match trimEnd r with
      | [] => if is_white_space c then [] else [c]
      | r' => c :: r'
      end
  end.

(** [s.trim()] *)
Definition trim (s : jsstring) : jsstring := trimEnd (trimStart s).

(** A string is trimmed when neither end is white space. *)
Definition trimmed (s : jsstring) : Prop :=
  match s with
  | [] => True
  | c :: _ => is_white_space c = false /\ is_white_space (last s c) = false
  end.

(** The Number values the component meets: NaN, the Numbers that are
    integers, and the two infinities.  The sign of zero is not kept. *)
Inductive number : Type :=
| NaN
| Int (z : Z)
| Infinity (negative : bool).

(** Up to 2^53 in magnitude every integer is a Number. *)
Definition exact (z : Z) : bool := (Z.abs z <=? 2 ^ 53)%Z.

(** The Number nearest to an integer [n] above 2^53: [n] cut to 53
    significant bits, a tie going to the even one; there is none from
    2^1024 - 2^970 on. *)
Definition nearest_double (n : Z) : option Z :=
  let shift := (Z.log2 n - 52)%Z in
  let q := Z.shiftr n shift in
  let r := (n - Z.shiftl q shift)%Z in
  let half := Z.shiftl 1 (shift - 1) in
  let q :=
    if ((half <? r) || ((r =? half) && Z.odd q))%Z then (q + 1)%Z else q in
  let v := Z.shiftl q shift in
  if (v <? 2 ^ 1024)%Z then Some v else None.

(** The Number value of a mathematical integer: what [parseInt] makes of
    the digits it read, and what [JSON.parse] makes of an integer of the
    response. *)
Definition to_double (z : Z) : number :=
  if exact z then Int z
  else
    match nearest_double (Z.abs z) with
    | Some v => Int (Z.sgn z * v)
    | None => Infinity (z <? 0)%Z
    end.

Definition is_digit (c : N) : bool := ((48 <=? c) && (c <=? 57))%N.

(** The longest prefix of decimal digits. *)
Fixpoint digits_prefix (s : jsstring) : jsstring :=
  match s with
  | [] => []
  | c :: r => if is_digit c then c :: digits_prefix r else []
  end.

Definition digit_value (c : N) : Z := Z.of_N (c - 48).

Definition mathInt (digits : jsstring) : Z :=
  fold_left (fun acc c => 10 * acc + digit_value c)%Z digits 0%Z.

(** [parseInt(s, 10)]: leading white space is skipped, one sign is read,
    then the longest run of decimal digits; with no digit the result is
    NaN, and otherwise the Number value of the signed integer that the
    digits spell.  Radix 10 reads no [0x] prefix. *)
Definition parseInt10 (s : jsstring) : number :=
  let input := trimStart s in
  let '(sign, input) :=
    match input with
    | c :: r =>
        if (c =? 45)%N then ((-1)%Z, r)
        else if (c =? 43)%N then (1%Z, r)
        else (1%Z, input)
    | [] => (1%Z, input)
    end in
  match digits_prefix input with
  | [] => NaN
  | d :: ds => to_double (sign * mathInt (d :: ds))
  end.

Fixpoint uint_digits (d : Decimal.uint) : jsstring :=
  match d with
  | Decimal.Nil => []
  | Decimal.D0 r => 48%N :: uint_digits r
  | Decimal.D1 r => 49%N :: uint_digits r
  | Decimal.D2 r => 50%N :: uint_digits r
  | Decimal.D3 r => 51%N :: uint_digits r
  | Decimal.D4 r => 52%N :: uint_digits r
  | Decimal.D5 r => 53%N :: uint_digits r
  | Decimal.D6 r => 54%N :: uint_digits r
  | Decimal.D7 r => 55%N :: uint_digits r
  | Decimal.D8 r => 56%N :: uint_digits r
  | Decimal.D9 r => 57%N :: uint_digits r
  end.

(** The decimal digits of an integer, with a minus sign when negative. *)
Definition decimal_text (z : Z) : jsstring :=
  match Z.to_int z with
  | Decimal.Pos d => uint_digits d
  | Decimal.Neg d => 45%N :: uint_digits d
  end.

(** Whether the integer [c] has the Number [v] for value. *)
Definition round_trips (c v : Z) : bool :=
  match to_double c with
  | Int w => (w =? v)%Z
  | _ => false
  end.

(** The fewest digits that identify the Number [v] above 2^53: the pair
    [(s, j)] with [j] as large as can be for [s * 10^j] to have the value
    [v]; of the two multiples of [10^j] around [v] the nearer one is taken,
    and the even one when they are as near.  [j] starts at the number of
    digits of [v]. *)
Fixpoint shortest (v : Z) (j : nat) : Z * nat :=
  let p := (10 ^ Z.of_nat j)%Z in
  let s0 := (v / p)%Z in
  let s1 := (s0 + 1)%Z in
  let ok0 := ((0 <? s0) && round_trips (s0 * p) v)%Z in
  let ok1 := round_trips (s1 * p) v in
  let below := (v - s0 * p)%Z in
  let above := (s1 * p - v)%Z in
  let pick :=
    if ok0 then
      if ok1 then
        if (below <? above)%Z then Some s0
        else if (above <? below)%Z then Some s1
        else if Z.even s0 then Some s0 else Some s1
      else Some s0
    else if ok1 then Some s1 else None in
  match pick, j with
  | Some s, _ => (s, j)
  | None, S j' => shortest v j'
  | None, O => (v, O)
  end.

(** What [toString] prints for a Number [v] above 2^53: its shortest
    digits, followed by zeros up to 21 digits in all, and in exponent
    notation beyond. *)
Definition large_text (v : Z) : jsstring :=
  let '(s, j) := shortest v (List.length (decimal_text v)) in
  let digits := decimal_text s in
  let n := (List.length digits + j)%nat in
  if (n <=? 21)%nat then digits ++ repeat 48%N j
  else
    match digits with
    | [] => []
    | [d] => d :: str "e+" ++ decimal_text (Z.of_nat (n - 1))
    | d :: rest =>
        d :: 46%N :: rest ++ str "e+" ++ decimal_text (Z.of_nat (n - 1))
    end.

(** [n.toString()], also what a template literal and a [Text] print for
    [n], where [n] is the Number value of the integer [z]: all its digits
    up to 2^53, the shortest digits that identify it above ("1e+21" for
    10^21), with a minus sign when negative. *)
Definition Number_toString (z : Z) : jsstring :=
  match to_double z with
  | NaN => str "NaN"
  | Infinity negative => if negative then str "-Infinity" else str "Infinity"
  | Int v =>
      if exact v then decimal_text v
      else if (v <? 0)%Z then 45%N :: large_text (- v)
      else large_text v
  end.

(** [ToBoolean] on an integer: only zero is falsy. *)
Definition truthy_number (z : Z) : bool := negb (z =? 0)%Z.

End JS.
Import JS.

(** ** Data model *)

(** A book identifier is assigned by the server: a number or a string
    (the list calls [item.id.toString()] on it).  [IdNum n] is the Number
    that [JSON.parse] makes of the integer [n] of the response, its
    nearest Number: beyond 2^53 several [n] are one identifier. *)
Inductive ident : Type :=
| IdNum (n : Z)
| IdStr (s : jsstring).

(** [id.toString()], also what a template literal prints for [id]. *)
Definition ident_toString (i : ident) : jsstring :=
  match i with
  | IdNum n => Number_toString n
  | IdStr s => s
  end.

Module Book.
(** A record of [GET /books]: [year] and [description] are optional
    ([None] is an absent, [undefined] or [null] field).  A year [Some y]
    is the Number value of the integer [y] of the response. *)
Record t : Type := make {
  id : ident;
  title : jsstring;
  author : jsstring;
  year : option Z;
  description : option jsstring
}.
End Book.

(** The state variables of [App], in the order of their [useState]. *)
Record State : Type := mkState {
  books : list Book.t;
  title : jsstring;
  author : jsstring;
  year : jsstring;
  description : jsstring;
  editingId : option ident;
  loading : bool
}.

(** The state of the first render. *)
Definition initial : State :=
  {| books := []; title := []; author := []; year := []; description := [];
     editingId := None; loading := false |}.

(** [ToBoolean] on [editingId]: [null], [0] and the empty string are falsy. *)
Definition truthy_id (e : option ident) : bool :=
  match e with
  | None => false
  | Some (IdNum n) => truthy_number n
  | Some (IdStr s) => truthy s
  end.

(** [editingId] inside a template literal. *)
Definition template_id (e : option ident) : jsstring :=
  match e with
  | None => str "null"
  | Some i => ident_toString i
  end.

(** The object [data] of [handleSubmit]; [year = None] is [undefined],
    which the JSON body leaves out.  NaN and the infinities are values of
    the object like any Number; the JSON body writes them [null]. *)
Record payload : Type := mkPayload {
  p_title : jsstring;
  p_author : jsstring;
  p_year : option number;
  p_description : jsstring
}.

Inductive method : Type := GET | POST | PUT | DELETE.

Record request : Type := mkRequest {
  req_method : method;
  req_url : jsstring;
  req_data : option payload
}.

(** What a rejected promise carries. *)
Record error : Type := mkError { message : jsstring }.

(** What [console.error] prints after its label: a string or an error
    object. *)
Inductive printed : Type :=
| PrintString (s : jsstring)
| PrintError (err : error).

(** How an axios promise settles.  [res.data] is read by [fetchBooks]
    only, where the API answers with an array of books. *)
Inductive response : Type :=
| Fulfilled (data : list Book.t)
| Rejected (err : error).

(** The state setters. *)
Inductive update : Type :=
| setBooks (v : list Book.t)
| setTitle (v : jsstring)
| setAuthor (v : jsstring)
| setYear (v : jsstring)
| setDescription (v : jsstring)
| setEditingId (v : option ident)
| setLoading (v : bool).

Definition apply_update (u : update) (s : State) : State :=
  match u with
  | setBooks v =>
      mkState v (title s) (author s) (year s) (description s) (editingId s) (loading s)
  | setTitle v =>
      mkState (books s) v (author s) (year s) (description s) (editingId s) (loading s)
  | setAuthor v =>
      mkState (books s) (title s) v (year s) (description s) (editingId s) (loading s)
  | setYear v =>
      mkState (books s) (title s) (author s) v (description s) (editingId s) (loading s)
  | setDescription v =>
      mkState (books s) (title s) (author s) (year s) v (editingId s) (loading s)
  | setEditingId v =>
      mkState (books s) (title s) (author s) (year s) (description s) v (loading s)
  | setLoading v =>
      mkState (books s) (title s) (author s) (year s) (description s) (editingId s) v
  end.

(** ** Function bodies as effect trees *)

(** A button of [Alert.alert]: its label, what pressing it runs, and how it
    is drawn. *)
Record button (T : Type) : Type := mkButton {
  text : jsstring;
  onPress : option T;
  style : jsstring
}.
Arguments mkButton {T}.
Arguments text {T}.
Arguments onPress {T}.
Arguments style {T}.

#[local] Set Warnings "-register-all".

(** The body of a function of the component, read from its first statement:
    each node is the next effect and what follows it.  [Await] suspends the
    function until the request settles; [Call] runs an async function of
    the component without awaiting it. *)
Inductive async : Type :=
| Return
| Throw (err : error)
| SetState (u : update) (k : async)
| AlertAlert (title message : jsstring) (buttons : list (button async)) (k : async)
| ConsoleError (label : jsstring) (arg : printed) (k : async)
| Await (r : request) (k : response -> async)
| Call (f : async) (k : async).

(** [p; q] *)
Fixpoint seq (p q : async) : async :=
  match p with
  | Return => q
  | Throw e => Throw e
  | SetState u k => SetState u (seq k q)
  | AlertAlert t m bs k => AlertAlert t m bs (seq k q)
  | ConsoleError l e k => ConsoleError l e (seq k q)
  | Await r k => Await r (fun res => seq (k res) q)
  | Call f k => Call f (seq k q)
  end.

(** [try { p } catch (err) { h err }]: a button handler or an un-awaited
    call runs on its own, so what it throws is not caught here. *)
Fixpoint try_catch (p : async) (h : error -> async) : async :=
  match p with
  | Return => Return
  | Throw e => h e
  | SetState u k => SetState u (try_catch k h)
  | AlertAlert t m bs k => AlertAlert t m bs (try_catch k h)
  | ConsoleError l e k => ConsoleError l e (try_catch k h)
  | Await r k => Await r (fun res => try_catch (k res) h)
  | Call f k => Call f (try_catch k h)
  end.

(** [try { p } finally { f }] *)
Fixpoint try_finally (p f : async) : async :=
  match p with
  | Return => f
  | Throw e => seq f (Throw e)
  | SetState u k => SetState u (try_finally k f)
  | AlertAlert t m bs k => AlertAlert t m bs (try_finally k f)
  | ConsoleError l e k => ConsoleError l e (try_finally k f)
  | Await r k => Await r (fun res => try_finally (k res) f)
  | Call f' k => Call f' (try_finally k f)
  end.

Declare Scope async_scope.
Delimit Scope async_scope with async.
Bind Scope async_scope with async.
Notation "p ;; q" := (seq p q) (at level 61, right associativity) : async_scope.
Notation "'try' {{ p }} 'catch' err {{ h }} 'finally' {{ f }}" :=
  (try_finally (try_catch p (fun err => h)) f)
    (at level 0, p at level 200, h at level 200, f at level 200, err name,
     format "'[v' 'try'  {{  '[' p ']'  }} '/' 'catch'  err  {{  '[' h ']'  }} '/' 'finally'  {{  '[' f ']'  }} ']'")
  : async_scope.
Open Scope async_scope.

(** A statement that is one state write. *)
Definition set (u : update) : async := SetState u Return.

(** [Alert.alert(title, message)] *)
Definition Alert_alert (title message : jsstring) : async :=
  AlertAlert title message [] Return.

(** [Alert.alert(title, message, buttons, { cancelable: false })]: the
    dialog goes away only through one of its buttons. *)
Definition Alert_alert_buttons
    (title message : jsstring) (buttons : list (button async)) : async :=
  AlertAlert title message buttons Return.

(** [f();] for an async function [f] of the component: not awaited. *)
Definition call (f : async) : async := Call f Return.

(** [console.error(label, arg)] *)
Definition console_error (label : jsstring) (arg : printed) : async :=
  ConsoleError label arg Return.

(** [const res = await request; k res]: a rejection is thrown at the
    [await]. *)
Definition await (r : request) (k : list Book.t -> async) : async :=
  Await r (fun res =>
    match res with
    | Fulfilled data => k data
    | Rejected err => Throw err
    end).

Definition axios_get (url : jsstring) : request := mkRequest GET url None.
Definition axios_post (url : jsstring) (data : payload) : request :=
  mkRequest POST url (Some data).
Definition axios_put (url : jsstring) (data : payload) : request :=
  mkRequest PUT url (Some data).
Definition axios_delete (url : jsstring) : request := mkRequest DELETE url None.

(** ** The component *)

Definition API_URL : jsstring := str "http://192.168.0.100:8000".

Definition fetchBooks : async :=
  set (setLoading true) ;;
  try {{
    await (axios_get (API_URL ++ str "/books")) (fun data =>
    set (setBooks data))
  }} catch err {{
    Alert_alert (str "Error")
      (str "Failed to fetch books. Check your API URL and server connection.") ;;
    console_error (str "Fetch books error:") (PrintString (message err))
  }} finally {{
    set (setLoading false)
  }}.

(** [useEffect(() => { fetchBooks(); }, [])]: the list is fetched once,
    when the component mounts. *)
Definition on_mount : async := call fetchBooks.

Definition resetForm : async :=
  set (setTitle []) ;;
  set (setAuthor []) ;;
  set (setYear []) ;;
  set (setDescription []) ;;
  set (setEditingId None).

(** The object [data] that [handleSubmit] builds from the form of the
    render it belongs to. *)
Definition submit_data (s : State) : payload :=
  {| p_title := trim (title s);
     p_author := trim (author s);
     p_year := if truthy (year s) then Some (parseInt10 (year s)) else None;
     p_description := trim (description s) |}.

(** A handler is a closure of one render: [s] is the state it sees, from
    its first statement to its last. *)
Definition handleSubmit (s : State) : async :=
  if negb (truthy (trim (title s))) || negb (truthy (trim (author s))) then
    Alert_alert (str "Validation") (str "Title and author are required.") ;;
    Return
  else
    let data := submit_data s in
    set (setLoading true) ;;
    try {{
      (if truthy_id (editingId s) then
         await (axios_put (API_URL ++ str "/books/" ++ template_id (editingId s)) data)
           (fun _ =>
         Alert_alert (str "Success") (str "Book updated successfully!"))
       else
         await (axios_post (API_URL ++ str "/books") data) (fun _ =>
         Alert_alert (str "Success") (str "Book added successfully!"))) ;;
      call fetchBooks ;;
      resetForm
    }} catch err {{
      Alert_alert (str "Error")
        (str "Failed to " ++
         (if truthy_id (editingId s) then str "update" else str "add") ++
         str " book. Check your network and API.") ;;
      console_error (str "Submit book error:") (PrintError err)
    }} finally {{
      set (setLoading false)
    }}.

Definition handleDelete (id : ident) : async :=
  Alert_alert_buttons (str "Delete Book")
    (str "Are you sure you want to delete this book?")
    [ {| text := str "Cancel"; onPress := None; style := str "cancel" |};
      {| text := str "Delete";
         style := str "destructive";
         onPress := Some (
           set (setLoading true) ;;
           try {{
             await (axios_delete (API_URL ++ str "/books/" ++ ident_toString id))
               (fun _ =>
             Alert_alert (str "Success") (str "Book deleted successfully!") ;;
             call fetchBooks)
           }} catch err {{
             Alert_alert (str "Error")
               (str "Failed to delete book. Check your network and API.") ;;
             console_error (str "Delete book error:") (PrintError err)
           }} finally {{
             set (setLoading false)
           }}) |} ].

Definition startEdit (book : Book.t) : async :=
  set (setEditingId (Some (Book.id book))) ;;
  set (setTitle (Book.title book)) ;;
  set (setAuthor (Book.author book)) ;;
  set (setYear
         match Book.year book with
         | Some y => if truthy_number y then Number_toString y else []
         | None => []
         end) ;;
  set (setDescription
         match Book.description book with
         | Some d => if truthy d then d else []
         | None => []
         end).

(** ** The event loop *)

(** What the component did, in the order it did it. *)
Inductive event : Type :=
| EvSetState (u : update)
| EvAlert (title message : jsstring) (labels : list jsstring)
| EvConsoleError (label : jsstring) (arg : printed)
| EvRequest (r : request)
| EvUnhandledRejection (err : error).

(** What the component waits for: the answer to a request, with the rest of
    the function that awaits it, or a button of an open dialog. *)
Inductive waiting : Type :=
| InFlight (r : request) (k : response -> async)
| Dialog (buttons : list (button async)).

Record machine : Type := mkMachine {
  state : State;
  pending : list waiting;
  trace : list event
}.

(** Nothing outstanding and nothing done yet. *)
Definition idle (s : State) : machine :=
  {| state := s; pending := []; trace := [] |}.

Definition log (e : event) (m : machine) : machine :=
  {| state := state m; pending := pending m; trace := trace m ++ [e] |}.

Definition wait_for (w : waiting) (m : machine) : machine :=
  {| state := state m; pending := pending m ++ [w]; trace := trace m |}.

Definition write (u : update) (m : machine) : machine :=
  {| state := apply_update u (state m); pending := pending m; trace := trace m |}.

(** Runs a function body until it returns or suspends at an [await].
    State writes are applied in program order; an alert without buttons
    leaves nothing to wait for. *)
Fixpoint run (p : async) (m : machine) : machine :=
  match p with
  | Return => m
  | Throw e => log (EvUnhandledRejection e) m
  | SetState u k => run k (log (EvSetState u) (write u m))
  | AlertAlert t msg bs k =>
      let m := log (EvAlert t msg (List.map (@text async) bs)) m in
      run k (match bs with
             | [] => m
             | _ :: _ => wait_for (Dialog bs) m
             end)
  | ConsoleError l e k => run k (log (EvConsoleError l e) m)
  | Await r k => wait_for (InFlight r k) (log (EvRequest r) m)
  | Call f k => run k (run f m)
  end.

Fixpoint remove_nth {A : Type} (i : nat) (l : list A) : list A :=
  match l, i with
  | [], _ => []
  | _ :: r, O => r
  | a :: r, S i => a :: remove_nth i r
  end.

Definition forget (i : nat) (m : machine) : machine :=
  {| state := state m; pending := remove_nth i (pending m); trace := trace m |}.

(** What happens to the component from outside. *)
Inductive input : Type :=
| Settle (i : nat) (res : response)  (* the [i]-th pending item, a request, settles *)
| Press (i j : nat).                 (* button [j] of the [i]-th pending item, a dialog *)

(** One turn of the event loop; [None] when the input fits no pending
    item. *)
Definition step (a : input) (m : machine) : option machine :=
  match a with
  | Settle i res =>
      match nth_error (pending m) i with
      | Some (InFlight _ k) => Some (run (k res) (forget i m))
      | _ => None
      end
  | Press i j =>
      match nth_error (pending m) i with
      | Some (Dialog bs) =>
          match nth_error bs j with
          | Some b =>
              Some (match onPress b with
                    | Some f => run f (forget i m)
                    | None => forget i m
                    end)
          | None => None
          end
      | _ => None
      end
  end.

Fixpoint steps (l : list input) (m : machine) : option machine :=
  match l with
  | [] => Some m
  | a :: l =>
      match step a m with
      | Some m => steps l m
      | None => None
      end
  end.

(** [d] happens after [m]: the state is the one [d] ends in, and what [d]
    did and left pending comes after what [m] had. *)
Definition after (m d : machine) : machine :=
  {| state := state d;
     pending := pending m ++ pending d;
     trace := trace m ++ trace d |}.

(** ** Observations on a trace *)

Definition requests (t : list event) : list request :=
  flat_map (fun e => match e with EvRequest r => [r] | _ => [] end) t.

Definition alerts (t : list event) : list (jsstring * jsstring) :=
  flat_map (fun e => match e with EvAlert a b _ => [(a, b)] | _ => [] end) t.

Definition writes (t : list event) : list update :=
  flat_map (fun e => match e with EvSetState u => [u] | _ => [] end) t.

Definition in_flight (m : machine) : list request :=
  flat_map (fun w => match w with InFlight r _ => [r] | Dialog _ => [] end)
    (pending m).

Definition method_eqb (a b : method) : bool :=
  match a, b with
  | GET, GET | POST, POST | PUT, PUT | DELETE, DELETE => true
  | _, _ => false
  end.

Definition with_method (a : method) (l : list request) : list request :=
  filter (fun r => method_eqb (req_method r) a) l.

(** ** Vocabulary of the specification *)

(** The form of the example: title "Dune", author "Herbert", year "1965",
    no description, create mode. *)
Definition dune (cached : list Book.t) (busy : bool) : State :=
  {| books := cached;
     title := str "Dune"; author := str "Herbert"; year := str "1965";
     description := str ""; editingId := None; loading := busy |}.

Definition dune_body : payload :=
  {| p_title := str "Dune"; p_author := str "Herbert";
     p_year := Some (Int 1965); p_description := str "" |}.

(** A form passes the validation of [handleSubmit] when neither the
    trimmed title nor the trimmed author is empty. *)
Definition passes_validation (s : State) : Prop :=
  trim (title s) <> [] /\ trim (author s) <> [].

(** The request a valid submit makes: an update of [editingId] in edit
    mode, a create otherwise. *)
Definition submit_request (s : State) : request :=
  if truthy_id (editingId s) then
    axios_put (API_URL ++ str "/books/" ++ template_id (editingId s))
      (submit_data s)
  else
    axios_post (API_URL ++ str "/books") (submit_data s).

(** The refresh of the list. *)
Definition refresh : request := axios_get (API_URL ++ str "/books").

(** The alert of a failed submit names the attempted action. *)
Definition submit_failure_alert (s : State) : jsstring * jsstring :=
  (str "Error",
   if truthy_id (editingId s)
   then str "Failed to update book. Check your network and API."
   else str "Failed to add book. Check your network and API.").

(** An empty form in create mode. *)
Definition form_reset (s : State) : Prop :=
  title s = [] /\ author s = [] /\ year s = [] /\ description s = [] /\
  editingId s = None.

(** Two states with the same form. *)
Definition same_form (s s' : State) : Prop :=
  title s' = title s /\ author s' = author s /\ year s' = year s /\
  description s' = description s /\ editingId s' = editingId s.

(** The invariant of the data model on a payload, as the specification
    words it: title and author are non-empty trimmed strings, and the
    year, when present, is an integer. *)
Definition payload_invariant (p : payload) : Prop :=
  p_title p <> [] /\ trimmed (p_title p) /\
  p_author p <> [] /\ trimmed (p_author p) /\
  forall n, p_year p = Some n -> exists z, n = Int z.

(** Whether a text, after leading white space and one optional sign,
    starts with a decimal digit. *)
Definition starts_with_integer (s : jsstring) : bool :=
  let t := trimStart s in
  let t :=
    match t with
    | c :: r => if ((c =? 45) || (c =? 43))%N then r else t
    | [] => t
    end in
  match t with
  | c :: _ => is_digit c
  | [] => false
  end.

(** The invariant the payloads do satisfy: the year is present when the
    year field is not empty, and is then what [parseInt] reads from it: NaN
    if the field does not start with an integer, and if it does a Number
    that is an integer, or an infinity when the digits go beyond the
    Numbers. *)
Definition payload_invariant_parsed (field : jsstring) (p : payload) : Prop :=
  p_title p <> [] /\ trimmed (p_title p) /\
  p_author p <> [] /\ trimmed (p_author p) /\
  (p_year p = None <-> field = []) /\
  forall n, p_year p = Some n ->
    if starts_with_integer field
    then (exists z, n = Int z) \/ (exists negative, n = Infinity negative)
    else n = NaN.

(** A form that passes validation with a year field that is no number. *)
Definition dune_year_unknown : State :=
  {| books := [];
     title := str "Dune"; author := str "Herbert"; year := str "unknown";
     description := str ""; editingId := None; loading := false |}.

(** The text a form field shows for an optional year and an optional
    description: empty when there is none. *)
Definition year_text (y : option Z) : jsstring :=
  match y with
  | Some z => Number_toString z
  | None => []
  end.

Definition description_text (d : option jsstring) : jsstring :=
  match d with
  | Some d => d
  | None => []
  end.

(** The form holds a copy of the book and edits it. *)
Definition copies_book (b : Book.t) (s : State) : Prop :=
  title s = Book.title b /\
  author s = Book.author b /\
  year s = year_text (Book.year b) /\
  description s = description_text (Book.description b) /\
  editingId s = Some (Book.id b).

(** A book whose year is the number 0. *)
Definition book_year_zero : Book.t :=
  {| Book.id := IdNum 7; Book.title := str "Annals"; Book.author := str "Tacitus";
     Book.year := Some 0%Z; Book.description := None |}.

(** The confirmation dialog of [handleDelete]. *)
Definition delete_prompt : event :=
  EvAlert (str "Delete Book") (str "Are you sure you want to delete this book?")
    [str "Cancel"; str "Delete"].

Definition delete_request (id : ident) : request :=
  axios_delete (API_URL ++ str "/books/" ++ ident_toString id).

Definition fetch_failure_alert : jsstring * jsstring :=
  (str "Error",
   str "Failed to fetch books. Check your API URL and server connection.").

(** Replays a trace from the loading flag [flag] and tells whether the flag
    was set each time a request was sent. *)
Fixpoint loading_at_requests (flag : bool) (t : list event) : bool :=
  match t with
  | [] => true
  | EvSetState (setLoading v) :: t => loading_at_requests v t
  | EvRequest _ :: t => flag && loading_at_requests flag t
  | _ :: t => loading_at_requests flag t
  end.

(** An operation started in state [s] has reached [m0] with its request
    [r] sent: the loading flag is set; whatever the answers, every request
    of the run is sent with the flag set, and once an answer has come the
    flag is clear, so it is clear when nothing is pending any more. *)
Definition brackets_requests (s : State) (r : request) (m0 : machine) : Prop :=
  loading (state m0) = true /\
  in_flight m0 = [r] /\
  (forall res, exists m, step (Settle 0 res) m0 = Some m) /\
  forall ins m, steps ins m0 = Some m ->
    loading_at_requests (loading s) (trace m) = true /\
    (ins <> [] -> loading (state m) = false) /\
    (pending m = [] -> loading (state m) = false).

(** A form in edit mode, and one whose [editingId] is the number 0. *)
Definition editing (id : ident) : State :=
  {| books := [];
     title := str " Dune "; author := str "Frank Herbert"; year := str "";
     description := str "Arrakis. "; editingId := Some id; loading := false |}.

(** ** The view *)

(** What [App] returns for a state: the text shown, the controls, and what
    each control calls.  The styles, the keyboard hints of the inputs, the
    header bar and the footer of the list, which no state changes, are
    left out. *)

(** A [TextInput]: what it shows and what typing in it calls. *)
Record text_input : Type := mkInput {
  placeholder : jsstring;
  value : jsstring;
  onChangeText : jsstring -> async
}.

(** A [TouchableOpacity]: the text or the icon on it, its [disabled] prop
    (false when it has none) and its [onPress]. *)
Record touchable : Type := mkTouchable {
  caption : jsstring;
  disabled : bool;
  touch_onPress : async
}.

(** What [{editingId && (<TouchableOpacity ...>)}] leaves in the place of
    the Cancel button: the button when [editingId] is truthy, and
    [editingId] itself, null, 0 or the empty string, when it is not. *)
Inductive cancel_slot : Type :=
| CancelButton (b : touchable)
| CancelValue (v : option ident).

Record form_view : Type := mkForm {
  formHeader : jsstring;
  input_title : text_input;
  input_author : text_input;
  input_year : text_input;
  input_description : text_input;
  submit_button : touchable;
  cancel_button : cancel_slot
}.

Record item_view : Type := mkItem {
  bookTitle : jsstring;
  bookAuthor : jsstring;
  bookDetails : jsstring;
  edit_icon : touchable;
  delete_icon : touchable
}.

(** Either the activity indicator with its text, or the form above the
    list; [ListEmptyComponent] is what the list shows when it has no
    row. *)
Inductive screen : Type :=
| Spinner (loadingText : jsstring)
| Content (form : form_view) (rows : list item_view)
    (ListEmptyComponent : option jsstring).

Definition renderBookItem (item : Book.t) : item_view :=
  {| bookTitle := Book.title item;
     bookAuthor := str "by " ++ Book.author item;
     bookDetails :=
       match Book.year item with
       | Some y => if truthy_number y then Number_toString y else str "N/A"
       | None => str "N/A"
       end ++
       str " | " ++
       match Book.description item with
       | Some d => if truthy d then d else str "No description provided."
       | None => str "No description provided."
       end;
     edit_icon :=
       {| caption := str "create-outline"; disabled := false;
          touch_onPress := startEdit item |};
     delete_icon :=
       {| caption := str "trash-outline"; disabled := false;
          touch_onPress := handleDelete (Book.id item) |} |}.

(** [keyExtractor] of the list. *)
Definition keyExtractor (item : Book.t) : jsstring :=
  ident_toString (Book.id item).

Definition renderForm (s : State) : form_view :=
  {| formHeader :=
       if truthy_id (editingId s) then str "Edit Book" else str "Add a New Book";
     input_title :=
       {| placeholder := str "Title"; value := title s;
          onChangeText := fun v => set (setTitle v) |};
     input_author :=
       {| placeholder := str "Author"; value := author s;
          onChangeText := fun v => set (setAuthor v) |};
     input_year :=
       {| placeholder := str "Publication Year"; value := year s;
          onChangeText := fun v => set (setYear v) |};
     input_description :=
       {| placeholder := str "Description"; value := description s;
          onChangeText := fun v => set (setDescription v) |};
     submit_button :=
       {| caption :=
            if truthy_id (editingId s) then str "Update Book" else str "Add Book";
          disabled := loading s;
          touch_onPress := handleSubmit s |};
     cancel_button :=
       if truthy_id (editingId s) then
         CancelButton
           {| caption := str "Cancel"; disabled := loading s;
              touch_onPress := resetForm |}
       else CancelValue (editingId s) |}.

(** The [return] of [App]. *)
Definition render (s : State) : screen :=
  if loading s && (List.length (books s) =? 0)%nat then
    Spinner (str "Loading books...")
  else
    Content (renderForm s) (List.map renderBookItem (books s))
      (match books s with
       | [] => Some (str "No books added yet. Add one above!")
       | _ :: _ => None
       end).

(** What the user does on the screen. *)
Inductive gesture : Type :=
| TapSubmit
| TapCancel
| TapEdit (row : nat)
| TapDelete (row : nat)
| TypeTitle (v : jsstring)
| TypeAuthor (v : jsstring)
| TypeYear (v : jsstring)
| TypeDescription (v : jsstring).

(** A tap runs the [onPress] of a touchable that is not disabled. *)
Definition tap (b : touchable) (m : machine) : option machine :=
  if disabled b then None else Some (run (touch_onPress b) m).

(** A gesture acts on the controls of the screen rendered for the current
    state; [None] when the screen has no such control or it is disabled. *)
Definition perform (g : gesture) (m : machine) : option machine :=
  match render (state m) with
  | Spinner _ => None
  | Content form rows _ =>
      match g with
      | TapSubmit => tap (submit_button form) m
      | TapCancel =>
          match cancel_button form with
          | CancelButton b => tap b m
          | CancelValue _ => None
          end
      | TapEdit row =>
          match nth_error rows row with
          | Some r => tap (edit_icon r) m
          | None => None
          end
      | TapDelete row =>
          match nth_error rows row with
          | Some r => tap (delete_icon r) m
          | None => None
          end
      | TypeTitle v => Some (run (onChangeText (input_title form) v) m)
      | TypeAuthor v => Some (run (onChangeText (input_author form) v) m)
      | TypeYear v => Some (run (onChangeText (input_year form) v) m)
      | TypeDescription v =>
          Some (run (onChangeText (input_description form) v) m)
      end
  end.

(** ** More observations *)

Definition console_errors (t : list event) : list (jsstring * printed) :=
  flat_map (fun e => match e with EvConsoleError l a => [(l, a)] | _ => [] end) t.

Definition unhandled (t : list event) : list error :=
  flat_map (fun e => match e with EvUnhandledRejection e => [e] | _ => [] end) t.

Fixpoint jsstring_eqb (a b : jsstring) : bool :=
  match a, b with
  | [], [] => true
  | x :: a, y :: b => (x =? y)%N && jsstring_eqb a b
  | _, _ => false
  end.

(** The alerts titled "Error". *)
Definition error_alerts (t : list event) : list (jsstring * jsstring) :=
  filter (fun a => jsstring_eqb (fst a) (str "Error")) (alerts t).

(** The alerts titled "Success". *)
Definition success_alerts (t : list event) : list (jsstring * jsstring) :=
  filter (fun a => jsstring_eqb (fst a) (str "Success")) (alerts t).

(** How many requests of a run were rejected, and how many fulfilled. *)
Definition rejections (ins : list input) : nat :=
  List.length (filter (fun a => match a with Settle _ (Rejected _) => true | _ => false end) ins).

Definition fulfilments (ins : list input) : nat :=
  List.length (filter (fun a => match a with Settle _ (Fulfilled _) => true | _ => false end) ins).

(** A text of white space only. *)
Definition all_white_space (s : jsstring) : bool := forallb is_white_space s.

(** The state with the form of a book under edit, as [startEdit] leaves
    it. *)
Definition editing_book (book : Book.t) (s : State) : State :=
  state (run (startEdit book) (idle s)).

(** Every failure of a run started in [m0] is reported once and none
    escapes: no rejection is left unhandled, and there are as many "Error"
    alerts, and as many console errors, as rejected requests. *)
Definition reports_failures (m0 : machine) : Prop :=
  forall ins m, steps ins m0 = Some m ->
    unhandled (trace m) = [] /\
    List.length (error_alerts (trace m)) = rejections ins /\
    List.length (console_errors (trace m)) = rejections ins.

(** The requests of a run that starts with the mutation [r]: the refresh
    follows when [r] is fulfilled, nothing follows when it is rejected. *)
Definition mutation_requests (r : request) (ins : list input) : list request :=
  match ins with
  | Settle _ (Fulfilled _) :: _ => [r; refresh]
  | _ => [r]
  end.

(** A run started in [m0] by the mutation [r] sends [r] once, the refresh
    at most once, and is over after two answers at most. *)
Definition never_retries (r : request) (m0 : machine) : Prop :=
  forall ins m, steps ins m0 = Some m ->
    requests (trace m) = mutation_requests r ins /\
    (List.length ins <= 2)%nat.

(** A book of the collection and a state whose list holds it alone. *)
Definition dune_book : Book.t :=
  {| Book.id := IdNum 3; Book.title := str "Dune"; Book.author := str "Herbert";
     Book.year := Some 1965%Z; Book.description := None |}.

Definition shelf : State :=
  {| books := [dune_book]; title := []; author := []; year := [];
     description := []; editingId := None; loading := false |}.

(** * Properties *)

(** ** The built-ins *)

Example trim_example : trim (str "  Dune ") = str "Dune".
Proof. reflexivity. Qed.

Example trim_ideographic_space : trim [0x3000%N; 0x0009%N] = [].
Proof. reflexivity. Qed.

Example parseInt10_1965 : parseInt10 (str "1965") = Int 1965.
Proof. reflexivity. Qed.

Example parseInt10_suffix : parseInt10 (str " -12ab") = Int (-12).
Proof. reflexivity. Qed.

Example parseInt10_no_digit : parseInt10 (str "abc") = NaN.
Proof. reflexivity. Qed.

Example Number_toString_1965 : Number_toString 1965 = str "1965".
Proof. reflexivity. Qed.

Example Number_toString_neg : Number_toString (-40) = str "-40".
Proof. reflexivity. Qed.

(** Beyond 2^53 not every integer is a Number. *)
Example to_double_tie_to_even :
  to_double 9007199254740993 = Int 9007199254740992 /\
  to_double 9007199254740995 = Int 9007199254740996.
Proof. split; vm_compute; reflexivity. Qed.

Example parseInt10_rounds :
  parseInt10 (str "9007199254740993") = Int 9007199254740992.
Proof. vm_compute. reflexivity. Qed.

Example parseInt10_overflows :
  parseInt10 (repeat 57%N 400) = Infinity false /\
  parseInt10 (45%N :: repeat 57%N 400) = Infinity true.
Proof. split; vm_compute; reflexivity. Qed.

Example Number_toString_shortest :
  Number_toString (2 ^ 60) = str "1152921504606847000" /\
  Number_toString 9007199254740993 = str "9007199254740992" /\
  Number_toString (10 ^ 21) = str "1e+21" /\
  Number_toString (- 10 ^ 23) = str "-1e+23" /\
  Number_toString (2 ^ 1023) = str "8.98846567431158e+307" /\
  Number_toString (10 ^ 400) = str "Infinity".
Proof. repeat split; vm_compute; reflexivity. Qed.

Lemma truthy_false (s : jsstring) : truthy s = false <-> s = [].
Proof. destruct s; simpl; split; congruence. Qed.

Lemma truthy_true (s : jsstring) : truthy s = true <-> s <> [].
Proof. destruct s; simpl; split; congruence. Qed.

Lemma trimStart_head (s : jsstring) :
  match trimStart s with
  | [] => True
  | c :: _ => is_white_space c = false
  end.
Proof.
  induction s as [|c r IH]; simpl; [exact I|].
  destruct (is_white_space c) eqn:E; [exact IH | exact E].
Qed.

Lemma trimEnd_head (c : N) (r : jsstring) :
  is_white_space c = false -> exists r', trimEnd (c :: r) = c :: r'.
Proof.
  intros E. simpl. destruct (trimEnd r) as [|x r'].
  - rewrite E. now exists [].
  - now exists (x :: r').
Qed.

Lemma trimEnd_last (s : jsstring) (d : N) :
  trimEnd s <> [] -> is_white_space (last (trimEnd s) d) = false.
Proof.
  induction s as [|c r IH]; simpl; [congruence|].
  destruct (trimEnd r) as [|x r'] eqn:E.
  - destruct (is_white_space c) eqn:W; [congruence|]. intros _. exact W.
  - intros _. change (last (c :: x :: r') d) with (last (x :: r') d).
    apply IH. congruence.
Qed.

(** What [trim] returns has no white space at either end. *)
Lemma trim_trimmed (s : jsstring) : trimmed (trim s).
Proof.
  unfold trim. pose proof (trimStart_head s) as H.
  destruct (trimStart s) as [|c r]; [exact I|].
  destruct (trimEnd_head c r H) as [r' E].
  pose proof (trimEnd_last (c :: r) c) as L.
  rewrite E in *. split; [exact H | apply L; congruence].
Qed.

Lemma trimEnd_idempotent (s : jsstring) : trimEnd (trimEnd s) = trimEnd s.
Proof.
  induction s as [|c r IH]; simpl; [reflexivity|].
  destruct (trimEnd r) as [|x r'] eqn:E.
  - destruct (is_white_space c) eqn:W; simpl; [reflexivity | now rewrite W].
  - simpl in *. now rewrite IH.
Qed.

Lemma trim_idempotent (s : jsstring) : trim (trim s) = trim s.
Proof.
  unfold trim. pose proof (trimStart_head s) as H.
  destruct (trimStart s) as [|c r]; [reflexivity|].
  destruct (trimEnd_head c r H) as [r' E]. rewrite E.
  cbn [trimStart]. rewrite H, <- E. apply trimEnd_idempotent.
Qed.

Lemma digits_prefix_spec (t : jsstring) :
  match t with
  | c :: _ =>
      if is_digit c then exists d ds, digits_prefix t = d :: ds
      else digits_prefix t = []
  | [] => digits_prefix t = []
  end.
Proof.
  destruct t as [|c r]; simpl; [reflexivity|].
  destruct (is_digit c); [now exists c, (digits_prefix r) | reflexivity].
Qed.

Lemma to_double_exact (z : Z) : exact z = true -> to_double z = Int z.
Proof. intros E. unfold to_double. now rewrite E. Qed.

(** The Number value of an integer is an integer or an infinity. *)
Lemma to_double_kind (z : Z) :
  (exists v, to_double z = Int v) \/
  (exists negative, to_double z = Infinity negative).
Proof.
  unfold to_double. destruct (exact z); [left; now eexists|].
  destruct (nearest_double (Z.abs z)); [left | right]; now eexists.
Qed.

(** [parseInt(s, 10)] is NaN when [s] does not start with an integer, and
    when it does an integer or an infinity. *)
Lemma parseInt10_spec (s : jsstring) :
  if starts_with_integer s
  then (exists z, parseInt10 s = Int z) \/
       (exists negative, parseInt10 s = Infinity negative)
  else parseInt10 s = NaN.
Proof.
  unfold starts_with_integer, parseInt10.
  destruct (trimStart s) as [|c r]; [reflexivity|].
  destruct (c =? 45)%N; cbn [orb].
  - pose proof (digits_prefix_spec r) as D. destruct r as [|d r].
    + now rewrite D.
    + destruct (is_digit d).
      * destruct D as (x & xs & ->). apply to_double_kind.
      * now rewrite D.
  - destruct (c =? 43)%N.
    + pose proof (digits_prefix_spec r) as D. destruct r as [|d r].
      * now rewrite D.
      * destruct (is_digit d).
        -- destruct D as (x & xs & ->). apply to_double_kind.
        -- now rewrite D.
    + pose proof (digits_prefix_spec (c :: r)) as D. cbv beta iota in D.
      destruct (is_digit c).
      * destruct D as (x & xs & ->). apply to_double_kind.
      * now rewrite D.
Qed.

Lemma is_digit_range (c : N) : is_digit c = true <-> (48 <= c <= 57)%N.
Proof. unfold is_digit. rewrite andb_true_iff, !N.leb_le. reflexivity. Qed.

(** A digit is neither white space nor a sign. *)
Lemma is_digit_plain (c : N) :
  is_digit c = true ->
  is_white_space c = false /\ (c =? 45)%N = false /\ (c =? 43)%N = false.
Proof.
  rewrite is_digit_range. intros R.
  assert (E : (c = 48 \/ c = 49 \/ c = 50 \/ c = 51 \/ c = 52 \/
               c = 53 \/ c = 54 \/ c = 55 \/ c = 56 \/ c = 57)%N) by lia.
  repeat destruct E as [E|E]; subst c; repeat split.
Qed.

Lemma parseInt10_unsigned (c : N) (r : jsstring) :
  is_digit c = true ->
  parseInt10 (c :: r) = to_double (mathInt (c :: digits_prefix r)).
Proof.
  intros D. destruct (is_digit_plain c D) as (W & M & P).
  unfold parseInt10. cbn [trimStart]. rewrite W, M, P.
  cbn [digits_prefix]. rewrite D. f_equal. apply Z.mul_1_l.
Qed.

Lemma parseInt10_negative (c : N) (r : jsstring) :
  is_digit c = true ->
  parseInt10 (45%N :: c :: r) = to_double (- mathInt (c :: digits_prefix r)).
Proof.
  intros D. unfold parseInt10. cbn [trimStart].
  change (is_white_space 45) with false. cbv beta iota.
  rewrite N.eqb_refl.
  cbn [digits_prefix]. rewrite D. f_equal; lia.
Qed.

Lemma uint_digits_all_digits (d : Decimal.uint) :
  digits_prefix (uint_digits d) = uint_digits d.
Proof. induction d; cbn; congruence. Qed.

Lemma uint_digits_head (d : Decimal.uint) :
  d <> Decimal.Nil ->
  exists c r, uint_digits d = c :: uint_digits r /\ is_digit c = true.
Proof. destruct d; [congruence | now eexists; eexists ..]. Qed.

Lemma mathInt_step (c : N) (r : jsstring) (acc : Z) :
  fold_left (fun acc c => 10 * acc + digit_value c)%Z (c :: r) acc =
  fold_left (fun acc c => 10 * acc + digit_value c)%Z r
    (10 * acc + digit_value c)%Z.
Proof. reflexivity. Qed.

Lemma mathInt_acc (d : Decimal.uint) :
  forall acc : positive,
    fold_left (fun acc c => 10 * acc + digit_value c)%Z (uint_digits d)
      (Z.pos acc) =
    Z.pos (Pos.of_uint_acc d acc).
Proof.
  induction d; intros acc; cbn [uint_digits Pos.of_uint_acc];
    [ reflexivity
    | rewrite mathInt_step, <- IHd; f_equal;
      unfold digit_value; simpl Z.of_N; lia .. ].
Qed.

Lemma mathInt_uint_digits (d : Decimal.uint) :
  mathInt (uint_digits d) = Z.of_N (Pos.of_uint d).
Proof.
  unfold mathInt.
  induction d; cbn [uint_digits Pos.of_uint];
    [ reflexivity
    | rewrite mathInt_step; first [exact IHd | apply mathInt_acc] .. ].
Qed.

(** Up to 2^53, [toString] prints all the digits. *)
Lemma Number_toString_exact (z : Z) :
  exact z = true -> Number_toString z = decimal_text z.
Proof.
  intros E. unfold Number_toString. now rewrite (to_double_exact z E), E.
Qed.

(** [parseInt(n.toString(), 10)] is [n] for an integer [n] up to 2^53: the
    year that [startEdit] writes into the form is then the year that
    [handleSubmit] reads back. *)
Lemma parseInt10_Number_toString (z : Z) :
  exact z = true -> parseInt10 (Number_toString z) = Int z.
Proof.
  intros X. rewrite (Number_toString_exact z X).
  destruct z as [|p|p]; [reflexivity| |];
    unfold decimal_text; cbn [Z.to_int];
    pose proof (mathInt_uint_digits (Pos.to_uint p)) as V;
    rewrite Unsigned.of_to in V;
    destruct (uint_digits_head (Pos.to_uint p) (Unsigned.to_uint_nonnil p))
      as (c & r & E & D);
    rewrite E in *;
    [ rewrite (parseInt10_unsigned c _ D)
    | rewrite (parseInt10_negative c _ D) ];
    rewrite uint_digits_all_digits, V; apply to_double_exact; exact X.
Qed.

(** ** The event loop *)

Lemma steps_nil_inv (m m' : machine) : steps [] m = Some m' -> m' = m.
Proof. simpl. congruence. Qed.

Lemma steps_cons_inv (a : input) (ins : list input) (m m' : machine) :
  steps (a :: ins) m = Some m' ->
  exists m1, step a m = Some m1 /\ steps ins m1 = Some m'.
Proof.
  simpl. destruct (step a m) as [m1|]; [|discriminate].
  intros H. now exists m1.
Qed.

(** With nothing pending, no input is accepted. *)
Lemma step_nothing_pending (a : input) (m : machine) :
  pending m = [] -> step a m = None.
Proof.
  intros E. destruct a as [i res|i j]; simpl; rewrite E; now destruct i.
Qed.

Lemma steps_nothing_pending (ins : list input) (m m' : machine) :
  pending m = [] -> steps ins m = Some m' -> ins = [] /\ m' = m.
Proof.
  intros E. destruct ins as [|a ins]; simpl.
  - intros H. split; congruence.
  - now rewrite (step_nothing_pending a m E).
Qed.

(** With one request in flight, the only input is its answer. *)
Lemma step_in_flight_inv (a : input) (m m' : machine)
    (r : request) (k : response -> async) :
  pending m = [InFlight r k] ->
  step a m = Some m' ->
  exists res, a = Settle 0 res /\ m' = run (k res) (forget 0 m).
Proof.
  intros E. destruct a as [i res|i j]; simpl; rewrite E.
  - destruct i as [|i]; simpl.
    + intros H. exists res. split; congruence.
    + now destruct i.
  - destruct i as [|i]; simpl; [discriminate | now destruct i].
Qed.

(** With one dialog open, the only input is one of its buttons. *)
Lemma step_dialog_inv (a : input) (m m' : machine) (bs : list (button async)) :
  pending m = [Dialog bs] ->
  step a m = Some m' ->
  exists j b, a = Press 0 j /\ nth_error bs j = Some b /\
    m' = match onPress b with
         | Some f => run f (forget 0 m)
         | None => forget 0 m
         end.
Proof.
  intros E. destruct a as [i res|i j]; simpl; rewrite E.
  - destruct i as [|i]; simpl; [discriminate | now destruct i].
  - destruct i as [|i]; simpl.
    + destruct (nth_error bs j) as [b|] eqn:B; [|discriminate].
      intros H. exists j, b. repeat split; congruence.
    + now destruct i.
Qed.

Lemma after_idle (m : machine) : after m (idle (state m)) = m.
Proof. destruct m; unfold after; cbn. now rewrite !app_nil_r. Qed.

Lemma after_assoc (m d e : machine) :
  after (after m d) e = after m (after d e).
Proof. unfold after; cbn. now rewrite !app_assoc. Qed.

Lemma log_after (e : event) (m : machine) :
  log e m = after m (log e (idle (state m))).
Proof. destruct m; unfold after, log; cbn. now rewrite app_nil_r. Qed.

(** Running a body on a machine that has a past and pending items is
    running it on the idle machine of the same state, after them: what the
    theorems below say of an operation started on an idle machine holds of
    it wherever it starts. *)
Lemma run_after (p : async) :
  forall m, run p m = after m (run p (idle (state m))).
Proof.
  induction p as [|e|u k IH|t msg bs k IH|l a k IH|r k IH|f IHf k IHk];
    intros m; cbn [run].
  - symmetry. apply after_idle.
  - apply log_after.
  - rewrite (IH (log _ (write u m))), (IH (log _ (write u (idle (state m))))).
    rewrite <- after_assoc. f_equal.
    destruct m; unfold after, log, write; cbn. now rewrite app_nil_r.
  - destruct bs as [|b bs].
    + rewrite (IH (log _ m)), (IH (log _ (idle (state m)))).
      rewrite <- after_assoc. f_equal. apply log_after.
    + rewrite (IH (wait_for _ (log _ m))),
        (IH (wait_for _ (log _ (idle (state m))))).
      now rewrite <- after_assoc.
  - rewrite (IH (log _ m)), (IH (log _ (idle (state m)))).
    rewrite <- after_assoc. f_equal. apply log_after.
  - reflexivity.
  - rewrite (IHk (run f m)), (IHk (run f (idle (state m)))).
    rewrite <- after_assoc. f_equal; [apply IHf | now rewrite (IHf m)].
Qed.

(** [H : steps ins m = Some m'] with nothing pending in [m]: the run is
    over. *)
Ltac run_over H :=
  apply steps_nothing_pending in H; [|reflexivity];
  let E := fresh in destruct H as [E ?]; try subst.

(** [H : steps ins m = Some m'] with one request in flight in [m]: either
    the run stops here, or the request settles with [res]. *)
Ltac answer H res :=
  match type of H with
  | steps ?ins _ = Some _ =>
      let a := fresh "a" in
      let m1 := fresh "m" in
      let E := fresh "E" in
      destruct ins as [|a ins];
      [ apply steps_nil_inv in H; try subst
      | apply steps_cons_inv in H; destruct H as (m1 & E & H);
        eapply step_in_flight_inv in E; [|reflexivity];
        destruct E as (res & ? & ?); subst a m1 ]
  end.

(** A leaf of a run: the flag was set at every request, and is clear unless
    the run has not moved yet. *)
Ltac flag_leaf :=
  let E := fresh "E" in
  split; [reflexivity|];
  split; intros E;
  [ first [reflexivity | now elim E]
  | first [reflexivity | discriminate E] ].

(** ** handleSubmit *)

Lemma handleSubmit_rejects (s : State) :
  trim (title s) = [] \/ trim (author s) = [] ->
  handleSubmit s =
  Alert_alert (str "Validation") (str "Title and author are required.").
Proof.
  intros H. unfold handleSubmit.
  destruct H as [H|H]; rewrite H; simpl; [reflexivity|].
  now rewrite orb_true_r.
Qed.

(** C1. When the trimmed title or the trimmed author is empty, submit shows
    the validation alert and does nothing else: the trace holds no request
    and no state write, nothing is left pending, and the state (cached
    list, form fields, editingId) is the one before. *)
Theorem handleSubmit_invalid_no_request (s : State) :
  trim (title s) = [] \/ trim (author s) = [] ->
  let m := run (handleSubmit s) (idle s) in
  trace m =
    [EvAlert (str "Validation") (str "Title and author are required.") []] /\
  requests (trace m) = [] /\
  pending m = [] /\
  state m = s /\
  forall ins m', steps ins m = Some m' -> m' = m.
Proof.
  intros H m. subst m. rewrite (handleSubmit_rejects s H).
  repeat split.
  intros ins m' S. now run_over S.
Qed.

Lemma handleSubmit_invalid_no_request_witness :
  (trim (title initial) = [] \/ trim (author initial) = []) /\
  state (run (handleSubmit initial) (idle initial)) = initial.
Proof.
  split; [left; reflexivity|].
  apply (handleSubmit_invalid_no_request initial). left; reflexivity.
Defined.

(** The same on a machine with a past: only the alert is added. *)
Lemma handleSubmit_invalid_anywhere (m : machine) :
  trim (title (state m)) = [] \/ trim (author (state m)) = [] ->
  run (handleSubmit (state m)) m =
  log (EvAlert (str "Validation") (str "Title and author are required.") []) m.
Proof.
  intros H. rewrite run_after, (handleSubmit_rejects _ H). symmetry.
  apply log_after.
Qed.

(** White space alone is no title. *)
Example handleSubmit_blank_title :
  let s := mkState [] (str "  ") (str "Herbert") (str "1965") [] None false in
  requests (trace (run (handleSubmit s) (idle s))) = [].
Proof. reflexivity. Qed.

(** C2. With title "Dune", author "Herbert", year "1965", an empty
    description and editingId null, submit sends
    [POST /books {title:"Dune", author:"Herbert", year:1965, description:""}]
    at once, and however the requests are answered afterwards, that POST is
    the only POST and no PUT is sent. *)
Theorem handleSubmit_dune_posts (cached : list Book.t) (busy : bool) :
  let m0 := run (handleSubmit (dune cached busy)) (idle (dune cached busy)) in
  requests (trace m0) = [axios_post (API_URL ++ str "/books") dune_body] /\
  forall ins m, steps ins m0 = Some m ->
    with_method POST (requests (trace m)) =
      [axios_post (API_URL ++ str "/books") dune_body] /\
    with_method PUT (requests (trace m)) = [].
Proof.
  intros m0. split; [reflexivity|].
  intros ins m H. subst m0.
  answer H res; [split; reflexivity|].
  destruct res as [data|err].
  - answer H res'; [split; reflexivity|].
    destruct res'; run_over H; split; reflexivity.
  - run_over H; split; reflexivity.
Qed.

Lemma handleSubmit_dune_posts_witness :
  with_method POST
    (requests (trace (run (handleSubmit (dune [] false)) (idle (dune [] false))))) =
  [axios_post (API_URL ++ str "/books") dune_body].
Proof.
  apply (proj2 (handleSubmit_dune_posts [] false) [] _ eq_refl).
Defined.

(** In edit mode the request is a PUT on the book, with the trimmed
    fields and no year when the year field is empty. *)
Example handleSubmit_edit_puts :
  requests (trace (run (handleSubmit (editing (IdNum 7)))
                     (idle (editing (IdNum 7))))) =
  [axios_put (str "http://192.168.0.100:8000/books/7")
     {| p_title := str "Dune"; p_author := str "Frank Herbert";
        p_year := None; p_description := str "Arrakis." |}].
Proof. reflexivity. Qed.

(** An [editingId] of 0 is falsy: the form is submitted as a new book. *)
Example handleSubmit_id_zero_posts :
  List.map req_method
    (requests (trace (run (handleSubmit (editing (IdNum 0)))
                        (idle (editing (IdNum 0)))))) = [POST].
Proof. reflexivity. Qed.

Section ValidSubmit.

Variable s : State.
Hypothesis valid : passes_validation s.

Lemma handleSubmit_accepts :
  handleSubmit s =
  (set (setLoading true) ;;
   try {{
     await (submit_request s) (fun _ =>
     Alert_alert (str "Success")
       (if truthy_id (editingId s)
        then str "Book updated successfully!"
        else str "Book added successfully!")) ;;
     call fetchBooks ;;
     resetForm
   }} catch err {{
     Alert_alert (fst (submit_failure_alert s)) (snd (submit_failure_alert s)) ;;
     console_error (str "Submit book error:") (PrintError err)
   }} finally {{
     set (setLoading false)
   }}).
Proof.
  destruct valid as [Ht Ha].
  unfold handleSubmit, submit_request, submit_failure_alert.
  apply truthy_true in Ht, Ha. rewrite Ht, Ha. cbn [negb orb].
  destruct (truthy_id (editingId s)); reflexivity.
Qed.

(** C3. When the form passes validation and the create or update request
    succeeds, the form is reset (title, author, year and description empty,
    editingId null) and one [GET /books] has been sent and is in flight;
    the form stays reset and no other request follows, however that
    refresh is answered. *)
Theorem handleSubmit_success_resets (data : list Book.t) :
  let m0 := run (handleSubmit s) (idle s) in
  in_flight m0 = [submit_request s] /\
  exists m1,
    step (Settle 0 (Fulfilled data)) m0 = Some m1 /\
    form_reset (state m1) /\
    requests (trace m1) = [submit_request s; refresh] /\
    in_flight m1 = [refresh] /\
    forall ins m, steps ins m1 = Some m ->
      form_reset (state m) /\
      requests (trace m) = [submit_request s; refresh].
Proof.
  intros m0. subst m0. rewrite handleSubmit_accepts.
  split; [reflexivity|].
  eexists. split; [reflexivity|].
  split; [repeat split|]. split; [reflexivity|]. split; [reflexivity|].
  intros ins m H.
  answer H res; [repeat split|].
  destruct res; run_over H; repeat split.
Qed.

(** C9. When the form passes validation and the create or update request
    fails, the form fields and editingId are the ones before submit, the
    cached list is the one before, no refresh is sent, the only alert is
    the error alert naming the action, and nothing more happens. *)
Theorem handleSubmit_failure_keeps_form (err : error) :
  exists m1,
    step (Settle 0 (Rejected err)) (run (handleSubmit s) (idle s)) = Some m1 /\
    same_form s (state m1) /\
    books (state m1) = books s /\
    requests (trace m1) = [submit_request s] /\
    with_method GET (requests (trace m1)) = [] /\
    alerts (trace m1) = [submit_failure_alert s] /\
    pending m1 = [] /\
    forall ins m, steps ins m1 = Some m -> m = m1.
Proof.
  rewrite handleSubmit_accepts.
  eexists. split; [reflexivity|].
  split; [repeat split|]. split; [reflexivity|]. split; [reflexivity|].
  split.
  { unfold submit_request. destruct (truthy_id (editingId s)); reflexivity. }
  split.
  { unfold submit_failure_alert.
    destruct (truthy_id (editingId s)); reflexivity. }
  split; [reflexivity|].
  intros ins m H. now run_over H.
Qed.

Lemma submit_data_invariant :
  payload_invariant_parsed (year s) (submit_data s).
Proof.
  destruct valid as [Ht Ha]. unfold payload_invariant_parsed, submit_data; cbn.
  split; [exact Ht|]. split; [apply trim_trimmed|].
  split; [exact Ha|]. split; [apply trim_trimmed|].
  split.
  - destruct (year s); cbn; split; congruence.
  - intros n. destruct (truthy (year s)); [|discriminate].
    intros [= <-]. apply parseInt10_spec.
Qed.

(** C4, as the code has it. When the form passes validation, the one
    request that submit sends carries a payload whose title and author are
    non-empty and trimmed, and whose year is present exactly when the year
    field is not empty; the year is then what [parseInt(year, 10)] reads:
    NaN when the field, after leading white space and an optional sign,
    does not start with a decimal digit, and otherwise a Number that is
    an integer, or an infinity when the digits go beyond the Numbers. *)
Theorem handleSubmit_payload_parsed :
  exists r,
    requests (trace (run (handleSubmit s) (idle s))) = [r] /\
    req_data r = Some (submit_data s) /\
    payload_invariant_parsed (year s) (submit_data s).
Proof.
  exists (submit_request s). rewrite handleSubmit_accepts.
  split; [reflexivity|]. split.
  - unfold submit_request. now destruct (truthy_id (editingId s)).
  - exact submit_data_invariant.
Qed.

(** The loading flag around a valid submit. *)
Lemma handleSubmit_brackets :
  brackets_requests s (submit_request s) (run (handleSubmit s) (idle s)).
Proof.
  rewrite handleSubmit_accepts.
  split; [reflexivity|]. split; [reflexivity|]. split.
  { intros res. eexists. reflexivity. }
  intros ins m H.
  answer H res; [flag_leaf|].
  destruct res as [data|err].
  - answer H res'; [flag_leaf|].
    destruct res'; run_over H; flag_leaf.
  - run_over H; flag_leaf.
Qed.

End ValidSubmit.

Lemma dune_passes_validation : passes_validation (dune [] false).
Proof. split; vm_compute; discriminate. Qed.

Lemma handleSubmit_success_resets_witness :
  passes_validation (dune [] false) /\
  in_flight (run (handleSubmit (dune [] false)) (idle (dune [] false))) =
    [submit_request (dune [] false)].
Proof.
  split; [exact dune_passes_validation|].
  exact (proj1 (handleSubmit_success_resets (dune [] false)
                  dune_passes_validation [])).
Defined.

Lemma handleSubmit_failure_keeps_form_witness :
  passes_validation (dune [] false) /\
  exists m1,
    step (Settle 0 (Rejected (mkError (str "Network Error"))))
      (run (handleSubmit (dune [] false)) (idle (dune [] false))) = Some m1 /\
    same_form (dune [] false) (state m1).
Proof.
  split; [exact dune_passes_validation|].
  destruct (handleSubmit_failure_keeps_form (dune [] false)
              dune_passes_validation (mkError (str "Network Error")))
    as (m1 & S & F & _).
  exists m1. split; assumption.
Defined.

Lemma dune_year_unknown_passes_validation : passes_validation dune_year_unknown.
Proof. split; vm_compute; discriminate. Qed.

Lemma handleSubmit_payload_parsed_witness :
  passes_validation dune_year_unknown /\
  payload_invariant_parsed (year dune_year_unknown)
    (submit_data dune_year_unknown).
Proof.
  split; [exact dune_year_unknown_passes_validation|].
  destruct (handleSubmit_payload_parsed dune_year_unknown
              dune_year_unknown_passes_validation) as (r & _ & _ & I).
  exact I.
Defined.

(** A year field of 400 nines passes validation too, and is sent as
    Infinity. *)
Example handleSubmit_year_overflows :
  let s := mkState [] (str "Dune") (str "Herbert") (repeat 57%N 400) [] None
             false in
  List.map req_data (requests (trace (run (handleSubmit s) (idle s)))) =
  [Some {| p_title := str "Dune"; p_author := str "Herbert";
           p_year := Some (Infinity false); p_description := [] |}].
Proof. vm_compute. reflexivity. Qed.

(** C4, as worded, fails: the form with title "Dune", author "Herbert" and
    year "unknown" passes validation, and the payload of its POST has the
    year NaN, which is no integer. *)
Lemma handleSubmit_year_not_integer :
  passes_validation dune_year_unknown /\
  exists r p,
    requests (trace (run (handleSubmit dune_year_unknown)
                       (idle dune_year_unknown))) = [r] /\
    req_data r = Some p /\
    p_year p = Some NaN /\
    ~ payload_invariant p.
Proof.
  split; [exact dune_year_unknown_passes_validation|].
  eexists. eexists. split; [reflexivity|]. split; [reflexivity|].
  split; [reflexivity|].
  intros (_ & _ & _ & _ & Y).
  destruct (Y NaN eq_refl) as [z Z]. discriminate Z.
Qed.

(** ** startEdit and resetForm *)

(** C5, as the code has it. [startEdit(book)] copies title and author,
    writes the year as its decimal text unless it is absent or 0 (the field
    is then empty), writes the description (empty when absent) and sets
    editingId to the book's id; it touches nothing else.  So it copies
    every book whose year is not 0. *)
Theorem startEdit_copies (book : Book.t) (s : State) :
  let m := run (startEdit book) (idle s) in
  title (state m) = Book.title book /\
  author (state m) = Book.author book /\
  year (state m) =
    match Book.year book with
    | Some 0%Z => []
    | y => year_text y
    end /\
  description (state m) = description_text (Book.description book) /\
  editingId (state m) = Some (Book.id book) /\
  books (state m) = books s /\
  loading (state m) = loading s /\
  pending m = [] /\
  requests (trace m) = [] /\
  (Book.year book <> Some 0%Z -> copies_book book (state m)).
Proof.
  destruct book as [i t a [[|y|y]|] [[|c d]|]];
    repeat split; try reflexivity.
  all: match goal with E : _ <> _ |- _ => now elim E end.
Qed.

Lemma startEdit_copies_witness :
  Book.year (Book.make (IdNum 3) (str "Dune") (str "Herbert") (Some 1965%Z) None)
    <> Some 0%Z /\
  copies_book (Book.make (IdNum 3) (str "Dune") (str "Herbert") (Some 1965%Z) None)
    (state (run (startEdit
                   (Book.make (IdNum 3) (str "Dune") (str "Herbert")
                      (Some 1965%Z) None))
              (idle initial))).
Proof.
  split; [discriminate|].
  apply (startEdit_copies
           (Book.make (IdNum 3) (str "Dune") (str "Herbert") (Some 1965%Z) None)
           initial).
  discriminate.
Defined.

(** C5, as worded, fails: for a book whose year is 0 the year field is left
    empty, where the copy of the year is the text "0". *)
Lemma startEdit_year_zero_not_copied :
  year (state (run (startEdit book_year_zero) (idle initial))) = [] /\
  year_text (Book.year book_year_zero) = str "0" /\
  ~ copies_book book_year_zero
      (state (run (startEdit book_year_zero) (idle initial))).
Proof.
  split; [reflexivity|]. split; [reflexivity|].
  intros (_ & _ & Y & _). discriminate Y.
Qed.

(** A year of 0 can be in the collection: the form itself sends it. *)
Example handleSubmit_year_zero :
  let s := mkState [] (str "Annals") (str "Tacitus") (str "0") [] None false in
  List.map req_data (requests (trace (run (handleSubmit s) (idle s)))) =
  [Some {| p_title := str "Annals"; p_author := str "Tacitus";
           p_year := Some (Int 0); p_description := [] |}].
Proof. reflexivity. Qed.

Lemma decimal_text_truthy (z : Z) : truthy (decimal_text z) = true.
Proof.
  destruct z as [|p|p]; [reflexivity| |reflexivity].
  unfold decimal_text; cbn [Z.to_int].
  destruct (uint_digits_head (Pos.to_uint p) (Unsigned.to_uint_nonnil p))
    as (c & r & -> & _).
  reflexivity.
Qed.

Lemma large_text_truthy (v : Z) : truthy (large_text v) = true.
Proof.
  unfold large_text.
  destruct (shortest v (List.length (decimal_text v))) as [s j].
  pose proof (decimal_text_truthy s) as T.
  destruct (decimal_text s) as [|d rest]; [discriminate T|].
  destruct (_ <=? 21)%nat; [reflexivity|].
  now destruct rest.
Qed.

(** What [toString] prints is never the empty string. *)
Lemma Number_toString_truthy (z : Z) : truthy (Number_toString z) = true.
Proof.
  unfold Number_toString. destruct (to_double z) as [|v|negative].
  - reflexivity.
  - destruct (exact v); [apply decimal_text_truthy|].
    destruct (v <? 0)%Z; [reflexivity | apply large_text_truthy].
  - now destruct negative.
Qed.

(** Editing a book and submitting the form unchanged sends the year of the
    book back when it is at most 2^53, except the year 0, which is sent
    as no year. *)
Lemma startEdit_then_submit_year (book : Book.t) (s : State) :
  (forall y, Book.year book = Some y -> exact y = true) ->
  p_year (submit_data (state (run (startEdit book) (idle s)))) =
  match Book.year book with
  | Some 0%Z => None
  | Some y => Some (Int y)
  | None => None
  end.
Proof.
  intros X. unfold submit_data. cbn.
  destruct (Book.year book) as [y|]; [|reflexivity].
  destruct (Z.eqb_spec y 0) as [->|N]; [reflexivity|].
  replace (truthy_number y) with true
    by (unfold truthy_number; destruct (Z.eqb_spec y 0); [contradiction|reflexivity]).
  rewrite Number_toString_truthy, (parseInt10_Number_toString y (X y eq_refl)).
  now destruct y.
Qed.

(** C8. [startEdit(book)] followed by [resetForm()] leaves the form empty
    (title, author, year and description empty, editingId null), whatever
    the book and the state before; the cached list and the loading flag
    are the ones before and no request is sent. *)
Theorem startEdit_resetForm_empty (book : Book.t) (s : State) :
  let m := run resetForm (run (startEdit book) (idle s)) in
  form_reset (state m) /\
  books (state m) = books s /\
  loading (state m) = loading s /\
  pending m = [] /\
  requests (trace m) = [].
Proof. cbn. repeat split. Qed.

(** [resetForm] empties the form wherever it runs. *)
Lemma resetForm_resets (m : machine) :
  form_reset (state (run resetForm m)) /\
  books (state (run resetForm m)) = books (state m) /\
  loading (state (run resetForm m)) = loading (state m).
Proof. cbn. repeat split. Qed.

(** ** fetchBooks *)

(** A fetch that succeeds replaces the cached list and leaves the form. *)
Lemma fetchBooks_success (s : State) (data : list Book.t) :
  exists m1,
    step (Settle 0 (Fulfilled data)) (run fetchBooks (idle s)) = Some m1 /\
    books (state m1) = data /\
    same_form s (state m1) /\
    loading (state m1) = false /\
    alerts (trace m1) = [] /\
    pending m1 = [].
Proof. eexists. split; [reflexivity|]. repeat split. Qed.

(** C6. [fetchBooks] sets the loading flag and sends [GET /books]; when
    that request fails, the cached list is the one before, exactly one
    alert, the error alert, has been shown, the loading flag is clear, and
    nothing more happens. *)
Theorem fetchBooks_failure_keeps_cache (s : State) (err : error) :
  let m0 := run fetchBooks (idle s) in
  requests (trace m0) = [refresh] /\
  in_flight m0 = [refresh] /\
  loading (state m0) = true /\
  exists m1,
    step (Settle 0 (Rejected err)) m0 = Some m1 /\
    books (state m1) = books s /\
    same_form s (state m1) /\
    alerts (trace m1) = [fetch_failure_alert] /\
    loading (state m1) = false /\
    pending m1 = [] /\
    forall ins m, steps ins m1 = Some m -> m = m1.
Proof.
  cbn zeta. split; [reflexivity|]. split; [reflexivity|]. split; [reflexivity|].
  eexists. split; [reflexivity|].
  split; [reflexivity|]. split; [repeat split|].
  split; [reflexivity|]. split; [reflexivity|]. split; [reflexivity|].
  intros ins m H. now run_over H.
Qed.

(** The error that a failed fetch prints is the message of the rejection. *)
Example fetchBooks_failure_trace :
  option_map trace
    (step (Settle 0 (Rejected (mkError (str "Network Error"))))
       (run fetchBooks (idle initial))) =
  Some [EvSetState (setLoading true);
        EvRequest refresh;
        EvAlert (fst fetch_failure_alert) (snd fetch_failure_alert) [];
        EvConsoleError (str "Fetch books error:")
          (PrintString (str "Network Error"));
        EvSetState (setLoading false)].
Proof. reflexivity. Qed.

Lemma fetchBooks_brackets (s : State) :
  brackets_requests s refresh (run fetchBooks (idle s)).
Proof.
  split; [reflexivity|]. split; [reflexivity|]. split.
  { intros res. eexists. reflexivity. }
  intros ins m H.
  answer H res; [flag_leaf|].
  destruct res; run_over H; flag_leaf.
Qed.

(** ** handleDelete *)

(** C7. [handleDelete(id)] first shows the confirmation dialog and sends
    nothing: the state is untouched and the only inputs accepted are the
    two buttons.  Declining ("Cancel") sends no request, leaves the state,
    so the cached list, as it was, and ends the run.  Confirming ("Delete")
    sends [DELETE /books/:id], the only DELETE of the run however it goes
    on; when that request succeeds, [GET /books] is sent to refresh the
    list. *)
Theorem handleDelete_asks_first (id : ident) (s : State) :
  let m0 := run (handleDelete id) (idle s) in
  trace m0 = [delete_prompt] /\
  state m0 = s /\
  in_flight m0 = [] /\
  (forall a m, step a m0 = Some m -> a = Press 0 0 \/ a = Press 0 1) /\
  (exists m1,
     step (Press 0 0) m0 = Some m1 /\
     state m1 = s /\
     requests (trace m1) = [] /\
     pending m1 = [] /\
     forall ins m, steps ins m1 = Some m -> m = m1) /\
  (exists m1,
     step (Press 0 1) m0 = Some m1 /\
     requests (trace m1) = [delete_request id] /\
     in_flight m1 = [delete_request id] /\
     books (state m1) = books s /\
     (forall ins m, steps ins m1 = Some m ->
        with_method DELETE (requests (trace m)) = [delete_request id]) /\
     forall data, exists m2,
       step (Settle 0 (Fulfilled data)) m1 = Some m2 /\
       books (state m2) = books s /\
       requests (trace m2) = [delete_request id; refresh] /\
       in_flight m2 = [refresh]).
Proof.
  cbn zeta. split; [reflexivity|]. split; [reflexivity|]. split; [reflexivity|].
  split.
  { intros a m H. eapply step_dialog_inv in H; [|reflexivity].
    destruct H as (j & b & -> & B & _).
    destruct j as [|[|j]]; [now left | now right | now destruct j]. }
  split.
  { eexists. split; [reflexivity|]. repeat split.
    intros ins m H. now run_over H. }
  eexists. split; [reflexivity|].
  split; [reflexivity|]. split; [reflexivity|]. split; [reflexivity|].
  split.
  - intros ins m H.
    answer H res; [reflexivity|].
    destruct res as [data|err].
    + answer H res'; [reflexivity|].
      destruct res'; now run_over H.
    + now run_over H.
  - intros data. eexists. split; [reflexivity|]. repeat split.
Qed.

Example handleDelete_url :
  req_url (delete_request (IdNum 12)) = str "http://192.168.0.100:8000/books/12".
Proof. reflexivity. Qed.

(** A delete that fails shows its error alert and sends no refresh. *)
Lemma handleDelete_failure (id : ident) (s : State) (err : error) :
  exists m1 m2,
    step (Press 0 1) (run (handleDelete id) (idle s)) = Some m1 /\
    step (Settle 0 (Rejected err)) m1 = Some m2 /\
    books (state m2) = books s /\
    requests (trace m2) = [delete_request id] /\
    alerts (trace m2) =
      [(str "Delete Book", str "Are you sure you want to delete this book?");
       (str "Error", str "Failed to delete book. Check your network and API.")] /\
    pending m2 = [].
Proof.
  eexists. eexists. split; [reflexivity|]. split; [reflexivity|]. repeat split.
Qed.

Lemma handleDelete_brackets (id : ident) (s : State) :
  exists m0,
    step (Press 0 1) (run (handleDelete id) (idle s)) = Some m0 /\
    brackets_requests s (delete_request id) m0.
Proof.
  eexists. split; [reflexivity|].
  split; [reflexivity|]. split; [reflexivity|]. split.
  { intros res. eexists. reflexivity. }
  intros ins m H.
  answer H res; [flag_leaf|].
  destruct res as [data|err].
  - answer H res'; [flag_leaf|].
    destruct res'; run_over H; flag_leaf.
  - run_over H; flag_leaf.
Qed.

(** ** The loading flag *)

(** After a submit that succeeded, the flag is clear although the refresh
    it started is still in flight: the refresh is not awaited, and the
    [finally] of the submit runs before the refresh is answered. *)
Example loading_clear_during_refresh :
  option_map (fun m => (loading (state m), in_flight m))
    (step (Settle 0 (Fulfilled []))
       (run (handleSubmit (dune [] false)) (idle (dune [] false)))) =
  Some (false, [refresh]).
Proof. reflexivity. Qed.

(** C10. Each operation that sends a request (fetch, a submit that passes
    validation, a confirmed delete) has the loading flag set when the
    request is sent, as it is for every request of the run, and has it
    clear once the request is answered, with success or with failure, so
    when the operation is over; a submit that fails validation writes no
    state at all. *)
Theorem loading_brackets_every_request :
  (forall s, brackets_requests s refresh (run fetchBooks (idle s))) /\
  (forall s, passes_validation s ->
     brackets_requests s (submit_request s) (run (handleSubmit s) (idle s))) /\
  (forall id s, exists m0,
     step (Press 0 1) (run (handleDelete id) (idle s)) = Some m0 /\
     brackets_requests s (delete_request id) m0) /\
  (forall s, trim (title s) = [] \/ trim (author s) = [] ->
     writes (trace (run (handleSubmit s) (idle s))) = [] /\
     loading (state (run (handleSubmit s) (idle s))) = loading s).
Proof.
  split; [exact fetchBooks_brackets|].
  split; [exact handleSubmit_brackets|].
  split; [exact handleDelete_brackets|].
  intros s H. rewrite (handleSubmit_rejects s H). split; reflexivity.
Qed.

Lemma loading_brackets_every_request_witness :
  passes_validation (dune [] false) /\
  brackets_requests (dune [] false) (submit_request (dune [] false))
    (run (handleSubmit (dune [] false)) (idle (dune [] false))) /\
  (trim (title initial) = [] \/ trim (author initial) = []) /\
  writes (trace (run (handleSubmit initial) (idle initial))) = [].
Proof.
  split; [exact dune_passes_validation|].
  split;
    [exact (proj1 (proj2 loading_brackets_every_request) _
              dune_passes_validation)|].
  split; [left; reflexivity|].
  apply (proj2 (proj2 (proj2 loading_brackets_every_request)) initial).
  left; reflexivity.
Defined.

(** * Further properties of the component *)

(** ** The operations *)

(** X1. When [GET /books] is fulfilled, [fetchBooks] replaces the cached
    list by the answer, leaves the form as it was, clears the loading
    flag, shows no alert and prints nothing, and nothing more happens. *)
Theorem fetchBooks_success_replaces_cache (s : State) (data : list Book.t) :
  exists m1,
    step (Settle 0 (Fulfilled data)) (run fetchBooks (idle s)) = Some m1 /\
    books (state m1) = data /\
    same_form s (state m1) /\
    loading (state m1) = false /\
    alerts (trace m1) = [] /\
    console_errors (trace m1) = [] /\
    requests (trace m1) = [refresh] /\
    pending m1 = [] /\
    forall ins m, steps ins m1 = Some m -> m = m1.
Proof.
  eexists. split; [reflexivity|]. repeat split.
  intros ins m H. now run_over H.
Qed.

(** X2. When a confirmed [DELETE] is rejected, the cached list and the
    form are the ones before, the loading flag is clear, one error alert is
    shown and the error is printed once, no success alert is shown, no
    refresh is sent, and nothing more happens. *)
Theorem handleDelete_failure_keeps_cache
    (id : ident) (s : State) (err : error) :
  exists m1 m2,
    step (Press 0 1) (run (handleDelete id) (idle s)) = Some m1 /\
    step (Settle 0 (Rejected err)) m1 = Some m2 /\
    books (state m2) = books s /\
    same_form s (state m2) /\
    loading (state m2) = false /\
    requests (trace m2) = [delete_request id] /\
    error_alerts (trace m2) =
      [(str "Error", str "Failed to delete book. Check your network and API.")] /\
    success_alerts (trace m2) = [] /\
    console_errors (trace m2) = [(str "Delete book error:", PrintError err)] /\
    pending m2 = [] /\
    forall ins m, steps ins m2 = Some m -> m = m2.
Proof.
  eexists. eexists. split; [reflexivity|]. split; [reflexivity|]. repeat split.
  intros ins m H. now run_over H.
Qed.

(** X3. After a valid submit whose request is fulfilled, the answer of
    the refresh decides the cached list: fulfilled, the list is the answer
    of the refresh (the answer of the POST or PUT is not used); rejected,
    the list is the one before and the fetch error alert is shown.  Either
    way one success alert has been shown, the form is reset, the loading
    flag is clear and nothing is pending. *)
Theorem handleSubmit_then_refresh
    (s : State) (data : list Book.t) (res : response) :
  passes_validation s ->
  exists m,
    steps [Settle 0 (Fulfilled data); Settle 0 res]
      (run (handleSubmit s) (idle s)) = Some m /\
    books (state m) =
      match res with
      | Fulfilled fresh => fresh
      | Rejected _ => books s
      end /\
    error_alerts (trace m) =
      match res with
      | Fulfilled _ => []
      | Rejected _ => [fetch_failure_alert]
      end /\
    List.length (success_alerts (trace m)) = 1%nat /\
    form_reset (state m) /\
    loading (state m) = false /\
    pending m = [].
Proof.
  intros valid. rewrite (handleSubmit_accepts s valid).
  destruct res as [fresh|err]; eexists; (split; [reflexivity|]).
  - split; [reflexivity|]. split; [reflexivity|].
    split; [destruct (truthy_id (editingId s)); reflexivity|]. repeat split.
  - split; [reflexivity|]. split; [reflexivity|].
    split; [destruct (truthy_id (editingId s)); reflexivity|]. repeat split.
Qed.

Lemma handleSubmit_then_refresh_witness :
  passes_validation (dune [] false) /\
  exists m,
    steps [Settle 0 (Fulfilled []); Settle 0 (Fulfilled [dune_book])]
      (run (handleSubmit (dune [] false)) (idle (dune [] false))) = Some m /\
    books (state m) = [dune_book].
Proof.
  split; [exact dune_passes_validation|].
  destruct (handleSubmit_then_refresh (dune [] false) [] (Fulfilled [dune_book])
              dune_passes_validation) as (m & S & B & _).
  exists m. split; assumption.
Defined.

(** X4. A confirmed delete never touches the form or [editingId], however
    its requests are answered, and the cached list changes only when both
    the delete and the refresh are fulfilled: it is then the answer of the
    refresh. *)
Theorem handleDelete_leaves_form (id : ident) (s : State) :
  exists m0,
    step (Press 0 1) (run (handleDelete id) (idle s)) = Some m0 /\
    (forall ins m, steps ins m0 = Some m ->
       same_form s (state m) /\
       (books (state m) = books s \/
        exists data fresh,
          ins = [Settle 0 (Fulfilled data); Settle 0 (Fulfilled fresh)] /\
          books (state m) = fresh)) /\
    forall data fresh, exists m,
      steps [Settle 0 (Fulfilled data); Settle 0 (Fulfilled fresh)] m0 = Some m /\
      books (state m) = fresh /\ loading (state m) = false /\ pending m = [].
Proof.
  eexists. split; [reflexivity|]. split.
  - intros ins m H.
    answer H res; [split; [repeat split | now left]|].
    destruct res as [data|err].
    + answer H res'; [split; [repeat split | now left]|].
      destruct res' as [fresh|err]; run_over H.
      * split; [repeat split|]. right. now exists data, fresh.
      * split; [repeat split | now left].
    + run_over H. split; [repeat split | now left].
  - intros data fresh. eexists. split; [reflexivity|]. repeat split.
Qed.

(** A leaf of a run, by computation and counting. *)
Ltac leaf := repeat split; try reflexivity; cbn; try lia.

Lemma fetchBooks_reports (s : State) : reports_failures (run fetchBooks (idle s)).
Proof.
  intros ins m H.
  answer H res; [leaf|].
  destruct res; run_over H; leaf.
Qed.

Lemma handleSubmit_reports (s : State) :
  passes_validation s -> reports_failures (run (handleSubmit s) (idle s)).
Proof.
  intros V. rewrite (handleSubmit_accepts s V).
  intros ins m H.
  answer H res; [leaf|].
  destruct res as [data|err].
  - answer H res'; [leaf|].
    destruct res'; run_over H; leaf.
  - run_over H; leaf.
Qed.

Lemma handleDelete_reports (id : ident) (s : State) :
  exists m0,
    step (Press 0 1) (run (handleDelete id) (idle s)) = Some m0 /\
    reports_failures m0.
Proof.
  eexists. split; [reflexivity|].
  intros ins m H.
  answer H res; [leaf|].
  destruct res as [data|err].
  - answer H res'; [leaf|].
    destruct res'; run_over H; leaf.
  - run_over H; leaf.
Qed.

(** X5. In every run of a fetch, of a valid submit and of a confirmed
    delete, each rejected request gives exactly one "Error" alert and one
    console error, a fulfilled request gives none, and no rejection is
    left unhandled. *)
Theorem failures_are_reported :
  (forall s, reports_failures (run fetchBooks (idle s))) /\
  (forall s, passes_validation s ->
     reports_failures (run (handleSubmit s) (idle s))) /\
  (forall id s, exists m0,
     step (Press 0 1) (run (handleDelete id) (idle s)) = Some m0 /\
     reports_failures m0).
Proof.
  split; [exact fetchBooks_reports|].
  split; [exact handleSubmit_reports | exact handleDelete_reports].
Qed.

Lemma failures_are_reported_witness :
  passes_validation (dune [] false) /\
  reports_failures (run (handleSubmit (dune [] false)) (idle (dune [] false))).
Proof.
  split; [exact dune_passes_validation|].
  exact (proj1 (proj2 failures_are_reported) _ dune_passes_validation).
Defined.

(** X6. No request is ever sent again.  A fetch sends its one GET and is
    over after its answer.  A valid submit and a confirmed delete send
    their request once, then the refresh once if the request was
    fulfilled and nothing if it was rejected, and are over after two
    answers at most. *)
Theorem requests_are_never_retried :
  (forall s ins m, steps ins (run fetchBooks (idle s)) = Some m ->
     requests (trace m) = [refresh] /\ (List.length ins <= 1)%nat) /\
  (forall s, passes_validation s ->
     never_retries (submit_request s) (run (handleSubmit s) (idle s))) /\
  (forall id s, exists m0,
     step (Press 0 1) (run (handleDelete id) (idle s)) = Some m0 /\
     never_retries (delete_request id) m0).
Proof.
  split; [|split].
  - intros s ins m H.
    answer H res; [leaf|].
    destruct res; run_over H; leaf.
  - intros s V. rewrite (handleSubmit_accepts s V).
    intros ins m H.
    answer H res; [leaf|].
    destruct res as [data|err].
    + answer H res'; [leaf|].
      destruct res'; run_over H; leaf.
    + run_over H; leaf.
  - intros id s. eexists. split; [reflexivity|].
    intros ins m H.
    answer H res; [leaf|].
    destruct res as [data|err].
    + answer H res'; [leaf|].
      destruct res'; run_over H; leaf.
    + run_over H; leaf.
Qed.

Lemma requests_are_never_retried_witness :
  passes_validation (dune [] false) /\
  never_retries (submit_request (dune [] false))
    (run (handleSubmit (dune [] false)) (idle (dune [] false))).
Proof.
  split; [exact dune_passes_validation|].
  exact (proj1 (proj2 requests_are_never_retried) _ dune_passes_validation).
Defined.

Lemma trimStart_nil (s : jsstring) :
  trimStart s = [] <-> all_white_space s = true.
Proof.
  induction s as [|c r IH]; cbn; [easy|].
  destruct (is_white_space c) eqn:W; cbn; [exact IH|]. split; discriminate.
Qed.

(** [trim] returns the empty string on white space alone, and on nothing
    else. *)
Lemma trim_nil (s : jsstring) : trim s = [] <-> all_white_space s = true.
Proof.
  rewrite <- trimStart_nil. unfold trim.
  pose proof (trimStart_head s) as H.
  destruct (trimStart s) as [|c r]; [easy|].
  destruct (trimEnd_head c r H) as [r' ->]. split; discriminate.
Qed.

(** X7. Submit sends no request exactly when the title or the author
    holds nothing but white space (the empty text included); any other
    form, whatever its year and description, goes to the server. *)
Theorem handleSubmit_sends_iff_not_blank (s : State) :
  requests (trace (run (handleSubmit s) (idle s))) = [] <->
  all_white_space (title s) || all_white_space (author s) = true.
Proof.
  rewrite orb_true_iff, <- !trim_nil. split.
  - intros H.
    destruct (trim (title s)) as [|c t] eqn:Et; [now left|].
    destruct (trim (author s)) as [|d a] eqn:Ea; [now right|].
    assert (V : passes_validation s) by (split; congruence).
    rewrite (handleSubmit_accepts s V) in H. discriminate H.
  - intros H. now rewrite (handleSubmit_rejects s H).
Qed.

Lemma truthy_string_or_empty (d : jsstring) : (if truthy d then d else []) = d.
Proof. now destruct d. Qed.

(** X8. For a book whose year, if it has one, is an integer of at most
    2^53 in magnitude, submitting the form as [startEdit] filled it sends
    the book back: title, author and description trimmed (an absent
    description as the empty text), and the year of the book as a number,
    read back from its digits, except that a year of 0, like an absent
    year, is sent as no year. *)
Theorem startEdit_then_submit_payload (book : Book.t) (s : State) :
  (forall y, Book.year book = Some y -> exact y = true) ->
  submit_data (editing_book book s) =
  {| p_title := trim (Book.title book);
     p_author := trim (Book.author book);
     p_year :=
       match Book.year book with
       | Some 0%Z => None
       | Some y => Some (Int y)
       | None => None
       end;
     p_description := trim (description_text (Book.description book)) |}.
Proof.
  intros X. unfold submit_data, editing_book. cbn.
  f_equal.
  - destruct (Book.year book) as [y|]; [|reflexivity].
    specialize (X y eq_refl).
    destruct y as [|p|p]; [reflexivity| |];
      cbn [truthy_number Z.eqb negb];
      now rewrite Number_toString_truthy, (parseInt10_Number_toString _ X).
  - destruct (Book.description book) as [d|]; [|reflexivity].
    cbn. now rewrite truthy_string_or_empty.
Qed.

Lemma startEdit_then_submit_payload_witness :
  (forall y, Book.year dune_book = Some y -> exact y = true) /\
  p_year (submit_data (editing_book dune_book initial)) = Some (Int 1965).
Proof.
  assert (X : forall y, Book.year dune_book = Some y -> exact y = true)
    by (intros y [= <-]; reflexivity).
  split; [exact X|].
  now rewrite (startEdit_then_submit_payload dune_book initial X).
Defined.

(** Beyond 2^53 the year comes back changed: 10^21 is written "1e+21" in
    the form and read back as 1. *)
Example startEdit_then_submit_year_1e21 :
  let book := Book.make (IdNum 3) (str "Dune") (str "Herbert")
                (Some (10 ^ 21)%Z) None in
  year (editing_book book initial) = str "1e+21" /\
  p_year (submit_data (editing_book book initial)) = Some (Int 1).
Proof. split; vm_compute; reflexivity. Qed.

(** X9. Submitting a valid form that [startEdit] filled sends one request:
    [PUT /books/:id] for the id of the book when that id is truthy, and
    [POST /books], which creates a book, when the id is 0 or the empty
    string. *)
Theorem startEdit_then_submit_request (book : Book.t) (s : State) :
  passes_validation (editing_book book s) ->
  requests (trace (run (handleSubmit (editing_book book s))
                     (idle (editing_book book s)))) =
  [ if truthy_id (Some (Book.id book)) then
      axios_put (API_URL ++ str "/books/" ++ ident_toString (Book.id book))
        (submit_data (editing_book book s))
    else
      axios_post (API_URL ++ str "/books") (submit_data (editing_book book s)) ].
Proof.
  intros V. rewrite (handleSubmit_accepts _ V). reflexivity.
Qed.

Lemma startEdit_then_submit_request_witness :
  passes_validation (editing_book dune_book initial) /\
  List.map req_method
    (requests (trace (run (handleSubmit (editing_book dune_book initial))
                        (idle (editing_book dune_book initial))))) = [PUT].
Proof.
  assert (V : passes_validation (editing_book dune_book initial))
    by (split; vm_compute; discriminate).
  split; [exact V|].
  rewrite (startEdit_then_submit_request dune_book initial V).
  reflexivity.
Defined.

(** ** The screen *)

Lemma render_not_loading (s : State) :
  loading s = false ->
  render s =
  Content (renderForm s) (List.map renderBookItem (books s))
    (match books s with
     | [] => Some (str "No books added yet. Add one above!")
     | _ :: _ => None
     end).
Proof. intros L. unfold render. now rewrite L. Qed.

(** X10. The spinner and the disabled submit button follow the loading
    flag, not the requests in flight.  Right after [fetchBooks] is called
    on an idle component, as on mount, the screen is the spinner alone,
    with no control to act on, when the cached list is empty, and
    otherwise the rows of the cached list under a form whose submit
    button is disabled; when its answer comes, the form is there with its
    submit button enabled, above the rows of the answer when it is
    fulfilled and of the list before when it is rejected.  The refresh
    that a fulfilled submit starts is not awaited: while it is in flight
    the flag is already clear, so the form is shown with its submit
    button enabled, and there is no spinner even with an empty cached
    list. *)
Theorem fetchBooks_screen (s : State) :
  let m0 := run fetchBooks (idle s) in
  (books s = [] ->
     render (state m0) = Spinner (str "Loading books...") /\
     forall g, perform g m0 = None) /\
  (books s <> [] ->
     exists form,
       render (state m0) = Content form (List.map renderBookItem (books s)) None /\
       disabled (submit_button form) = true) /\
  (forall res, exists m1 form,
     step (Settle 0 res) m0 = Some m1 /\
     render (state m1) =
       Content form
         (List.map renderBookItem (books (state m1)))
         (match books (state m1) with
          | [] => Some (str "No books added yet. Add one above!")
          | _ :: _ => None
          end) /\
     books (state m1) =
       match res with
       | Fulfilled data => data
       | Rejected _ => books s
       end /\
     disabled (submit_button form) = false) /\
  (passes_validation s ->
   forall data, exists m1 form e,
     step (Settle 0 (Fulfilled data)) (run (handleSubmit s) (idle s)) = Some m1 /\
     in_flight m1 = [refresh] /\
     render (state m1) =
       Content form (List.map renderBookItem (books s)) e /\
     disabled (submit_button form) = false).
Proof.
  cbn zeta. split; [|split; [|split]].
  - intros E. unfold perform, render. cbn. rewrite E. cbn. now split.
  - intros N. unfold render. cbn.
    destruct (books s) as [|b bs]; [congruence|]. cbn.
    eexists. split; reflexivity.
  - intros res. destruct res as [data|err]; eexists; eexists;
      (split; [reflexivity|]); (split; [apply render_not_loading; reflexivity|]);
      split; reflexivity.
  - intros V data. rewrite (handleSubmit_accepts s V).
    eexists. eexists. eexists. split; [reflexivity|]. split; [reflexivity|].
    split; [rewrite render_not_loading by reflexivity; reflexivity|].
    reflexivity.
Qed.

Lemma fetchBooks_screen_witness :
  passes_validation (dune [] false) /\
  exists m1 form e,
    step (Settle 0 (Fulfilled []))
      (run (handleSubmit (dune [] false)) (idle (dune [] false))) = Some m1 /\
    in_flight m1 = [refresh] /\
    render (state m1) =
      Content form (List.map renderBookItem (books (dune [] false))) e /\
    disabled (submit_button form) = false.
Proof.
  split; [exact dune_passes_validation|].
  exact (proj2 (proj2 (proj2 (fetchBooks_screen (dune [] false))))
           dune_passes_validation []).
Defined.

(** X11. What the submit button says is what it does: on a valid form
    that is not loading, the header reads "Edit Book" and the button
    "Update Book" when tapping it sends a PUT, and they read "Add a New
    Book" and "Add Book" when it sends a POST; it sends one of the two. *)
Theorem submit_caption_matches_request (s : State) :
  passes_validation s ->
  loading s = false ->
  exists form rows e m r,
    render s = Content form rows e /\
    perform TapSubmit (idle s) = Some m /\
    requests (trace m) = [r] /\
    ((formHeader form = str "Edit Book" /\
      caption (submit_button form) = str "Update Book" /\
      req_method r = PUT) \/
     (formHeader form = str "Add a New Book" /\
      caption (submit_button form) = str "Add Book" /\
      req_method r = POST)).
Proof.
  intros V L.
  exists (renderForm s). eexists. eexists. eexists. exists (submit_request s).
  split; [now apply render_not_loading|].
  unfold perform. cbn [state idle]. rewrite (render_not_loading s L).
  unfold tap. cbn [renderForm submit_button disabled touch_onPress].
  rewrite L. split; [reflexivity|].
  rewrite (handleSubmit_accepts s V). split; [reflexivity|].
  unfold submit_request, renderForm; cbn.
  destruct (truthy_id (editingId s)); [left | right]; repeat split.
Qed.

Lemma submit_caption_matches_request_witness :
  (passes_validation (dune [] false) /\ loading (dune [] false) = false) /\
  exists form rows e m r,
    render (dune [] false) = Content form rows e /\
    perform TapSubmit (idle (dune [] false)) = Some m /\
    requests (trace m) = [r] /\
    ((formHeader form = str "Edit Book" /\
      caption (submit_button form) = str "Update Book" /\
      req_method r = PUT) \/
     (formHeader form = str "Add a New Book" /\
      caption (submit_button form) = str "Add Book" /\
      req_method r = POST)).
Proof.
  split; [split; [exact dune_passes_validation | reflexivity]|].
  apply (submit_caption_matches_request (dune [] false));
    [exact dune_passes_validation | reflexivity].
Defined.

(** X12. What keeps the form from being sent twice is the loading flag
    alone, and the flag is shared.  Right after a tap on submit with a
    valid form, the request is in flight and neither the submit nor the
    cancel button can be tapped (they are disabled, or hidden behind the
    spinner).  But the icons of the rows are never disabled: tapping
    delete on a row, confirming, and having the DELETE answered, with
    success or failure, clears the flag while the first request is still
    unanswered; a second tap on submit then sends the same request again,
    and both are in flight. *)
Theorem submit_guard_is_the_loading_flag (s : State) :
  passes_validation s ->
  loading s = false ->
  exists m0,
    perform TapSubmit (idle s) = Some m0 /\
    in_flight m0 = [submit_request s] /\
    loading (state m0) = true /\
    perform TapSubmit m0 = None /\
    perform TapCancel m0 = None /\
    forall book row res,
      nth_error (books s) row = Some book ->
      exists m1 m2 m3 m4,
        perform (TapDelete row) m0 = Some m1 /\
        step (Press 1 1) m1 = Some m2 /\
        step (Settle 1 res) m2 = Some m3 /\
        loading (state m3) = false /\
        perform TapSubmit m3 = Some m4 /\
        in_flight m4 =
          match res with
          | Fulfilled _ => [submit_request s; refresh; submit_request s]
          | Rejected _ => [submit_request s; submit_request s]
          end.
Proof.
  intros V L. eexists.
  unfold perform at 1. cbn [state idle]. rewrite (render_not_loading s L).
  unfold tap at 1. cbn [renderForm submit_button disabled touch_onPress].
  rewrite L, (handleSubmit_accepts s V).
  split; [reflexivity|]. split; [reflexivity|]. split; [reflexivity|].
  split; [|split].
  - unfold perform, render, tap; cbn.
    destruct (books s); reflexivity.
  - unfold perform, render, tap; cbn.
    destruct (books s); cbn; [reflexivity|].
    destruct (truthy_id (editingId s)); reflexivity.
  - intros book row res R.
    assert (R' : nth_error (List.map renderBookItem (books s)) row =
                 Some (renderBookItem book)) by now apply map_nth_error.
    assert (B : (List.length (books s) =? 0)%nat = false)
      by (destruct (books s); [now destruct row | reflexivity]).
    set (s3 := mkState (books s) (title s) (author s) (year s) (description s)
                 (editingId s) false).
    assert (V3 : passes_validation s3) by exact V.
    destruct res as [data|err]; do 4 eexists;
      (split; [unfold perform, render; cbn; rewrite B, R'; reflexivity|]);
      (split; [reflexivity|]); (split; [reflexivity|]);
      (split; [reflexivity|]);
      (split;
       [unfold perform; rewrite render_not_loading by reflexivity;
        reflexivity|]);
      match goal with
      | |- in_flight (run _ ?m) = ?rhs =>
          change (in_flight (run (handleSubmit s3) m) = rhs)
      end;
      rewrite (handleSubmit_accepts s3 V3); reflexivity.
Qed.

(** A form ready to be sent, above a list that holds one book. *)
Lemma submit_guard_is_the_loading_flag_witness :
  (passes_validation (dune [dune_book] false) /\
   loading (dune [dune_book] false) = false) /\
  exists m0,
    perform TapSubmit (idle (dune [dune_book] false)) = Some m0 /\
    perform TapSubmit m0 = None /\
    exists m1 m2 m3 m4,
      perform (TapDelete 0) m0 = Some m1 /\
      step (Press 1 1) m1 = Some m2 /\
      step (Settle 1 (Rejected (mkError (str "Network Error")))) m2 = Some m3 /\
      perform TapSubmit m3 = Some m4 /\
      in_flight m4 =
        [submit_request (dune [dune_book] false);
         submit_request (dune [dune_book] false)].
Proof.
  assert (V : passes_validation (dune [dune_book] false))
    by (split; vm_compute; discriminate).
  split; [split; [exact V | reflexivity]|].
  destruct (submit_guard_is_the_loading_flag (dune [dune_book] false) V eq_refl)
    as (m0 & P & _ & _ & D & _ & R).
  exists m0. split; [exact P|]. split; [exact D|].
  destruct (R dune_book 0%nat (Rejected (mkError (str "Network Error"))) eq_refl)
    as (m1 & m2 & m3 & m4 & E1 & E2 & E3 & _ & E4 & E5).
  exists m1, m2, m3, m4. repeat split; assumption.
Defined.

(** X13. A row of the list shows what its edit icon loads into the form:
    the title, the author after "by ", and the year and the description of
    the form after [startEdit], with "N/A" for an empty year field (a book
    without year, or of year 0) and "No description provided." for an
    empty description. *)
Theorem row_shows_what_edit_loads (book : Book.t) (s : State) :
  let e := editing_book book s in
  state (run (touch_onPress (edit_icon (renderBookItem book))) (idle s)) = e /\
  bookTitle (renderBookItem book) = title e /\
  bookAuthor (renderBookItem book) = str "by " ++ author e /\
  bookDetails (renderBookItem book) =
    (if truthy (year e) then year e else str "N/A") ++
    str " | " ++
    (if truthy (description e) then description e
     else str "No description provided.").
Proof.
  cbn zeta. split; [reflexivity|]. split; [reflexivity|]. split; [reflexivity|].
  unfold renderBookItem, editing_book. cbn.
  f_equal; [|f_equal].
  - destruct (Book.year book) as [y|]; [|reflexivity].
    destruct (truthy_number y); [|reflexivity].
    now rewrite Number_toString_truthy.
  - destruct (Book.description book) as [[|c d]|]; reflexivity.
Qed.

Lemma Number_toString_injective (a b : Z) :
  exact a = true -> exact b = true ->
  Number_toString a = Number_toString b -> a = b.
Proof.
  intros Xa Xb E. apply (f_equal parseInt10) in E.
  rewrite (parseInt10_Number_toString a Xa),
    (parseInt10_Number_toString b Xb) in E.
  congruence.
Qed.

Lemma book_url_injective (x y : jsstring) :
  API_URL ++ str "/books/" ++ x = API_URL ++ str "/books/" ++ y -> x = y.
Proof. intros E. now do 2 apply app_inv_head in E. Qed.

(** X14. Books with different numeric ids of at most 2^53 in magnitude are
    told apart: their list keys differ, the URLs of their DELETE requests
    differ, and so do the URLs of their PUT requests when both ids are
    truthy. *)
Theorem numeric_ids_are_told_apart (x y : Book.t) (a b : Z) (s : State) :
  Book.id x = IdNum a ->
  Book.id y = IdNum b ->
  exact a = true ->
  exact b = true ->
  a <> b ->
  keyExtractor x <> keyExtractor y /\
  req_url (delete_request (Book.id x)) <> req_url (delete_request (Book.id y)) /\
  (truthy_id (Some (Book.id x)) = true ->
   truthy_id (Some (Book.id y)) = true ->
   req_url (submit_request (editing_book x s)) <>
   req_url (submit_request (editing_book y s))).
Proof.
  intros Ex Ey Xa Xb N.
  assert (D : ident_toString (Book.id x) <> ident_toString (Book.id y)).
  { rewrite Ex, Ey. intros E.
    now apply N, (Number_toString_injective a b Xa Xb). }
  split; [exact D|]. split.
  - unfold delete_request, axios_delete. cbn [req_url].
    intros E. now apply D, book_url_injective.
  - intros Tx Ty. unfold submit_request.
    change (editingId (editing_book x s)) with (Some (Book.id x)).
    change (editingId (editing_book y s)) with (Some (Book.id y)).
    rewrite Tx, Ty. unfold axios_put. cbn [req_url template_id].
    intros E. now apply D, book_url_injective.
Qed.

Lemma numeric_ids_are_told_apart_witness :
  (Book.id book_year_zero = IdNum 7 /\ Book.id dune_book = IdNum 3 /\
   exact 7 = true /\ exact 3 = true /\ 7%Z <> 3%Z) /\
  keyExtractor book_year_zero <> keyExtractor dune_book.
Proof.
  split; [repeat split; discriminate|].
  apply (numeric_ids_are_told_apart book_year_zero dune_book 7 3 initial
           eq_refl eq_refl eq_refl eq_refl).
  discriminate.
Defined.

(** Beyond 2^53 two integers of the response can be one Number, so one
    key and one URL. *)
Example keyExtractor_beyond_exact :
  keyExtractor (Book.make (IdNum 9007199254740992) [] [] None None) =
  keyExtractor (Book.make (IdNum 9007199254740993) [] [] None None).
Proof. vm_compute. reflexivity. Qed.

(** X15. The Cancel button is there only in edit mode.  With a falsy
    [editingId] there is no button to tap.  With a truthy one (and no
    request loading), tapping it resets the form, sends nothing and leaves
    the cached list; the screen then reads "Add a New Book" and "Add Book"
    with no Cancel button. *)
Theorem cancel_leaves_edit_mode (s : State) :
  loading s = false ->
  (truthy_id (editingId s) = false -> perform TapCancel (idle s) = None) /\
  (truthy_id (editingId s) = true ->
   exists m form rows e,
     perform TapCancel (idle s) = Some m /\
     form_reset (state m) /\
     books (state m) = books s /\
     requests (trace m) = [] /\
     pending m = [] /\
     render (state m) = Content form rows e /\
     formHeader form = str "Add a New Book" /\
     caption (submit_button form) = str "Add Book" /\
     cancel_button form = CancelValue None /\
     perform TapCancel m = None).
Proof.
  intros L. unfold perform at 1 2. cbn [state idle].
  rewrite (render_not_loading s L). cbn [renderForm cancel_button].
  split; intros T; rewrite T; [reflexivity|].
  unfold tap. cbn [disabled touch_onPress]. rewrite L.
  eexists. eexists. eexists. eexists. split; [reflexivity|].
  split; [repeat split|]. split; [reflexivity|]. split; [reflexivity|].
  split; [reflexivity|].
  split; [apply render_not_loading; exact L|].
  split; [reflexivity|]. split; [reflexivity|]. split; [reflexivity|].
  unfold perform. rewrite render_not_loading by exact L. reflexivity.
Qed.

Lemma cancel_leaves_edit_mode_witness :
  (loading (editing (IdNum 7)) = false /\
   truthy_id (editingId (editing (IdNum 7))) = true) /\
  exists m, perform TapCancel (idle (editing (IdNum 7))) = Some m /\
            form_reset (state m).
Proof.
  split; [split; reflexivity|].
  destruct (proj2 (cancel_leaves_edit_mode (editing (IdNum 7)) eq_refl) eq_refl)
    as (m & form & rows & e & P & F & _).
  exists m. split; assumption.
Defined.

(** X16. Deleting the book that is being edited leaves it in the form.
    After tapping edit and then delete on a row, confirming, and having
    both the delete and the refresh fulfilled, the cached list is the
    answer of the refresh but [editingId] is still the id of the deleted
    book, and tapping submit sends [PUT /books/:id] for it. *)
Theorem deleted_book_stays_in_form
    (book : Book.t) (s : State) (row : nat) (data fresh : list Book.t) :
  nth_error (books s) row = Some book ->
  loading s = false ->
  truthy_id (Some (Book.id book)) = true ->
  passes_validation (editing_book book s) ->
  exists m1 m2 m3 m4 m5 m6,
    perform (TapEdit row) (idle s) = Some m1 /\
    perform (TapDelete row) m1 = Some m2 /\
    step (Press 0 1) m2 = Some m3 /\
    step (Settle 0 (Fulfilled data)) m3 = Some m4 /\
    step (Settle 0 (Fulfilled fresh)) m4 = Some m5 /\
    books (state m5) = fresh /\
    editingId (state m5) = Some (Book.id book) /\
    perform TapSubmit m5 = Some m6 /\
    requests (trace m6) =
      [delete_request (Book.id book); refresh;
       axios_put (API_URL ++ str "/books/" ++ ident_toString (Book.id book))
         (submit_data (editing_book book s))].
Proof.
  intros R L T V.
  assert (R' : nth_error (List.map renderBookItem (books s)) row =
               Some (renderBookItem book)) by now apply map_nth_error.
  do 6 eexists.
  split.
  { unfold perform. cbn [state idle]. rewrite (render_not_loading s L), R'.
    reflexivity. }
  split.
  { unfold perform. rewrite render_not_loading by exact L.
    cbn. rewrite R'. reflexivity. }
  split; [reflexivity|]. split; [reflexivity|]. split; [reflexivity|].
  split; [reflexivity|]. split; [reflexivity|].
  split.
  { unfold perform. rewrite render_not_loading by reflexivity. reflexivity. }
  set (s5 := mkState fresh (Book.title book) (Book.author book)
                (year (editing_book book s)) (description (editing_book book s))
                (Some (Book.id book)) false).
  assert (V5 : passes_validation s5) by exact V.
  match goal with
  | |- requests (trace (run _ ?m)) = ?rhs =>
      change (requests (trace (run (handleSubmit s5) m)) = rhs)
  end.
  rewrite (handleSubmit_accepts s5 V5). unfold submit_request.
  change (editingId s5) with (Some (Book.id book)). rewrite T.
  reflexivity.
Qed.

Lemma deleted_book_stays_in_form_witness :
  (nth_error (books shelf) 0 = Some dune_book /\
   loading shelf = false /\
   truthy_id (Some (Book.id dune_book)) = true /\
   passes_validation (editing_book dune_book shelf)) /\
  exists m5 m6,
    editingId (state m5) = Some (Book.id dune_book) /\
    perform TapSubmit m5 = Some m6 /\
    requests (trace m6) =
      [delete_request (Book.id dune_book); refresh;
       axios_put (API_URL ++ str "/books/" ++ ident_toString (Book.id dune_book))
         (submit_data (editing_book dune_book shelf))].
Proof.
  assert (V : passes_validation (editing_book dune_book shelf))
    by (split; vm_compute; discriminate).
  split; [repeat split; solve [reflexivity | apply V]|].
  destruct (deleted_book_stays_in_form dune_book shelf 0 [] [] eq_refl eq_refl
              eq_refl V)
    as (m1 & m2 & m3 & m4 & m5 & m6 & _ & _ & _ & _ & _ & _ & I & P & Q).
  exists m5, m6. repeat split; assumption.
Defined.
